(** * The thoughts store of js-project-happy-thoughts

    A shallow embedding of [src/stores/thoughtsStore.js]: the zustand store
    that keeps the feed of thoughts in step with the remote HTTP API.

    - The store's state is the record [FeedState]; [set({...})] is a record
      update, [get()] is the state passed in.
    - An [async] action runs synchronously up to its network request and is
      resumed when the request settles.  It is embedded as a [Task]: either
      it has [Finished] without a request, or it is [Suspended] at the
      request, holding the store as it is at that moment, the request, and
      the code that runs after the [await].  That code receives the reply
      and the store as it is when the action resumes, because every
      [set((state) => ...)] reads the store at the time it runs.
    - [try]/[catch]/[finally] blocks are written with the sum [Try].
    - JS numbers are integers of [Z]; JS strings are [string].  The code
      computes on doubles, so the arithmetic of the model ([+ 1],
      [Math.ceil] of a quotient) is the one of the code for safe integers
      only; a statement that rests on it carries that bound. *)

From Stdlib Require Import ZArith List String Bool Lia DecimalString.
Import ListNotations.
Open Scope string_scope.
Open Scope list_scope.
Open Scope Z_scope.

(** ** Data *)

(** A thought as the store and the list component read it. *)
Record Thought := mkThought {
  _id : string;
  message : string;
  createdAt : string;
  hearts : Z;
  likesCount : Z;
  owner : option string;
  isLikedByUser : bool;
  isOptimistic : bool
}.

(** A JSON object of a response body: a thought record or an error payload.
    A field that is [None] is absent ([undefined] when read). *)
Record ApiRecord := mkApiRecord {
  rec_id : option string;
  rec_message : option string;
  rec_createdAt : option string;
  rec_hearts : option Z;
  rec_likesCount : option Z;
  rec_owner : option string;
  rec_isLikedByUser : option bool
}.

(** [data.pagination] of a feed response. *)
Record Pagination := mkPagination {
  pg_currentPage : option Z;
  pg_totalPages : option Z;
  pg_hasNextPage : option bool
}.

(** The body of a feed response: a bare array of records, or an object
    [{thoughts, pagination, total}] any field of which may be absent. *)
Inductive FeedPayload :=
| BareArray (records : list ApiRecord)
| Envelope (env_thoughts : option (list ApiRecord))
           (env_pagination : option Pagination)
           (env_total : option Z).

(** A JS [Error] value; only its [message] is read. *)
Record JsError := mkError { err_message : string }.

(** The outcome of a block that may throw. *)
Inductive Try (A : Type) :=
| Normal (a : A)
| Thrown (e : JsError).
Arguments Normal {A} a.
Arguments Thrown {A} e.

(** The state of the store. *)
Record FeedState := mkFeedState {
  thoughts : list Thought;
  loading : bool;
  error : string;
  currentPage : Z;
  totalPages : Z;
  totalThoughts : Z;
  hasMore : bool;
  viewMode : string;
  thoughtFilter : string
}.

Definition PAGE_SIZE : Z := 10.

(** The state [create] starts the store with. *)
Definition initialState : FeedState :=
  {| thoughts := [];
     loading := false;
     error := "";
     currentPage := 1;
     totalPages := 1;
     totalThoughts := 0;
     hasMore := true;
     viewMode := "pagination";
     thoughtFilter := "all" |}.

(** [set({ field: v })]: zustand merges the partial state into the store. *)
Definition set_thoughts (v : list Thought) (s : FeedState) : FeedState :=
  mkFeedState v (loading s) (error s) (currentPage s) (totalPages s)
              (totalThoughts s) (hasMore s) (viewMode s) (thoughtFilter s).
Definition set_loading (v : bool) (s : FeedState) : FeedState :=
  mkFeedState (thoughts s) v (error s) (currentPage s) (totalPages s)
              (totalThoughts s) (hasMore s) (viewMode s) (thoughtFilter s).
Definition set_error (v : string) (s : FeedState) : FeedState :=
  mkFeedState (thoughts s) (loading s) v (currentPage s) (totalPages s)
              (totalThoughts s) (hasMore s) (viewMode s) (thoughtFilter s).
Definition set_currentPage (v : Z) (s : FeedState) : FeedState :=
  mkFeedState (thoughts s) (loading s) (error s) v (totalPages s)
              (totalThoughts s) (hasMore s) (viewMode s) (thoughtFilter s).
Definition set_totalPages (v : Z) (s : FeedState) : FeedState :=
  mkFeedState (thoughts s) (loading s) (error s) (currentPage s) v
              (totalThoughts s) (hasMore s) (viewMode s) (thoughtFilter s).
Definition set_totalThoughts (v : Z) (s : FeedState) : FeedState :=
  mkFeedState (thoughts s) (loading s) (error s) (currentPage s) (totalPages s)
              v (hasMore s) (viewMode s) (thoughtFilter s).
Definition set_hasMore (v : bool) (s : FeedState) : FeedState :=
  mkFeedState (thoughts s) (loading s) (error s) (currentPage s) (totalPages s)
              (totalThoughts s) v (viewMode s) (thoughtFilter s).
Definition set_viewMode (v : string) (s : FeedState) : FeedState :=
  mkFeedState (thoughts s) (loading s) (error s) (currentPage s) (totalPages s)
              (totalThoughts s) (hasMore s) v (thoughtFilter s).
Definition set_thoughtFilter (v : string) (s : FeedState) : FeedState :=
  mkFeedState (thoughts s) (loading s) (error s) (currentPage s) (totalPages s)
              (totalThoughts s) (hasMore s) (viewMode s) v.

(** ** Requests, replies and tasks *)

(** Which function sends the request: the global [fetch] or
    [authenticatedFetch] of [utils/authUtils]. *)
Inductive Fetcher := PlainFetch | AuthenticatedFetch.

Inductive Method := GET | POST | PUT | DELETE.

(** A request as the store issues it.  [req_body] is the [message] of
    [JSON.stringify({ message })] when the request has a body. *)
Record Request := mkRequest {
  req_via : Fetcher;
  req_url : string;
  req_method : Method;
  req_body : option string
}.

(** How a request settles.  [Rejects e]: the fetch function throws [e]
    (transport failure, or "Authentication required").  [Responds ok json]:
    a response arrives with [response.ok = ok]; [json] is what
    [await response.json()] gives if the action calls it, a parsed body or
    the error it throws.  The two awaits of an action are one suspension
    here: no action writes the store between them on a path that reads the
    body. *)
Inductive Reply (P : Type) :=
| Rejects (e : JsError)
| Responds (ok : bool) (json : Try P).
Arguments Rejects {P} e.
Arguments Responds {P} ok json.

(** How the promise of an action settles. *)
Inductive Completion (A : Type) :=
| Returned (a : A)
| Rejected (e : JsError).
Arguments Returned {A} a.
Arguments Rejected {A} e.

(** A settled action: the store it leaves, the messages it has passed to
    the caller's [onError] callback, and how its promise settled. *)
Record Settled (A : Type) := mkSettled {
  final : FeedState;
  notified : list string;
  completion : Completion A
}.
Arguments mkSettled {A} final notified completion.
Arguments final {A} s.
Arguments notified {A} s.
Arguments completion {A} s.

(** An action of the store; every action issues at most one request. *)
Inductive Task (P A : Type) :=
| Finished (s : Settled A)
| Suspended (st : FeedState) (req : Request)
            (resume : Reply P -> FeedState -> Settled A).
Arguments Finished {P A} s.
Arguments Suspended {P A} st req resume.

(** The store while the action is in flight (or after it, if it never
    suspends). *)
Definition store_of {P A} (t : Task P A) : FeedState :=
  match t with
  | Finished s => final s
  | Suspended st _ _ => st
  end.

(** The request in flight, if any. *)
Definition request_of {P A} (t : Task P A) : option Request :=
  match t with
  | Finished _ => None
  | Suspended _ req _ => Some req
  end.

(** Runs an action to its end with nothing else touching the store while
    the request is in flight. *)
Definition settle {P A} (t : Task P A) (reply : Reply P) : Settled A :=
  match t with
  | Finished s => s
  | Suspended st _ resume => resume reply st
  end.

(** ** What the store imports

    [config/api], [utils/authUtils] and [utils/thoughtUtils] are not part of
    the sources at hand.  The store is embedded over their interface. *)
Class Imports := {
  API_URL : string;
  processThought : ApiRecord -> Thought;
  createOptimisticThought : string -> Thought;
  createOptimisticLikeUpdate : Thought -> Thought;
  reinsertThought : list Thought -> Thought -> list Thought;
  handleApiError : JsError -> string -> string -> string;
  extractErrorMessage : ApiRecord -> string -> string;
  createOptimisticUpdater :
    string -> (Thought -> Thought) -> list Thought -> list Thought;
  createRemoveUpdater : string -> list Thought -> list Thought;
  (* the id is [undefined] ([None]) when it is read off a body without [_id] *)
  createReplaceUpdater : option string -> Thought -> list Thought -> list Thought
}.

(** ** JS operators *)

(** [`${n}`] for an integer. *)
Definition show (n : Z) : string := NilZero.string_of_int (Z.to_int n).

(** [a || b] on a number that may be absent: [undefined] and [0] are falsy. *)
Definition num_or (a : option Z) (b : Z) : Z :=
  match a with
  | Some z => if z =? 0 then b else z
  | None => b
  end.

(** Truthiness of a string field that may be absent. *)
Definition truthy (a : option string) : bool :=
  match a with
  | Some s => negb (s =? "")%string
  | None => false
  end.

(** [Number.MAX_SAFE_INTEGER], [2^53 - 1]. *)
Definition MAX_SAFE_INTEGER : Z := 9007199254740991.

(** [Number.isSafeInteger(n)] for an integer [n]: up to this magnitude the
    doubles of the code hold every integer, and add and divide them as the
    model does. *)
Definition safe_integer (n : Z) : Prop :=
  - MAX_SAFE_INTEGER <= n <= MAX_SAFE_INTEGER.

(** [Math.ceil(a / b)] for a safe integer [a] and [b = PAGE_SIZE].  Beyond
    the safe integers the quotient of the code is rounded before the
    ceiling is taken, and this is no longer its value. *)
Definition ceil_div (a b : Z) : Z := - ((- a) / b).

(** [thoughts.find(thought => thought._id === thoughtId)]. *)
Definition find_thought (thoughtId : string) (l : list Thought) : option Thought :=
  find (fun thought => (_id thought =? thoughtId)%string) l.

Section Store.
Context {I : Imports}.

(** ** fetchThoughts *)

Definition feed_endpoint (filter : string) (page : Z) : string :=
  if (filter =? "my")%string
  then (API_URL ++ "/users/me/thoughts?page=" ++ show page
          ++ "&limit=" ++ show PAGE_SIZE)%string
  else (API_URL ++ "/thoughts?page=" ++ show page
          ++ "&limit=" ++ show PAGE_SIZE)%string.

Definition feed_fetcher (filter : string) : Fetcher :=
  if (filter =? "my")%string then AuthenticatedFetch else PlainFetch.

(** [data.thoughts || data], as the array [.map] is then called on.  An
    object without [thoughts] has no [map]: the call throws. *)
Definition thoughtsArray_of (data : FeedPayload) : Try (list ApiRecord) :=
  match data with
  | BareArray records => Normal records
  | Envelope (Some records) _ _ => Normal records
  | Envelope None _ _ => Thrown (mkError "thoughtsArray.map is not a function")
  end.

(** [data.pagination || {}]. *)
Definition pagination_of (data : FeedPayload) : Pagination :=
  match data with
  | Envelope _ (Some p) _ => p
  | _ => mkPagination None None None
  end.

(** [data.total]. *)
Definition total_of (data : FeedPayload) : option Z :=
  match data with
  | Envelope _ _ t => t
  | BareArray _ => None
  end.

(** The [try] block of [fetchThoughts] from the first [await] on. *)
Definition fetchThoughts_try (page : Z) (append : bool)
    (reply : Reply FeedPayload) (state : FeedState) : Try FeedState :=
  match reply with
  | Rejects e => Thrown e
  | Responds false _ => Thrown (mkError "Failed to fetch thoughts")
  | Responds true (Thrown e) => Thrown e
  | Responds true (Normal data) =>
      match thoughtsArray_of data with
      | Thrown e => Thrown e
      | Normal thoughtsArray =>
          let processedThoughts := map processThought thoughtsArray in
          let pagination := pagination_of data in
          let total := num_or (total_of data) (Z.of_nat (List.length thoughtsArray)) in
          let currentPage' := num_or (pg_currentPage pagination) page in
          let totalPages' :=
            num_or (pg_totalPages pagination) (ceil_div total PAGE_SIZE) in
          let hasMore' :=
            match pg_hasNextPage pagination with
            | Some b => b
            | None => Z.of_nat (List.length processedThoughts) =? PAGE_SIZE
            end in
          Normal
            (set_hasMore hasMore'
              (set_totalThoughts total
                (set_totalPages totalPages'
                  (set_currentPage currentPage'
                    (set_thoughts
                       (if append then thoughts state ++ processedThoughts
                        else processedThoughts)
                       state)))))
      end
  end.

Definition fetchThoughts_resume (page : Z) (append : bool)
    (reply : Reply FeedPayload) (state : FeedState) : Settled unit :=
  let after_try :=
    match fetchThoughts_try page append reply state with
    | Normal s => s
    | Thrown _ =>
        set_error "Could not load happy thoughts. Please try again later." state
    end in
  mkSettled (set_loading false after_try) [] (Returned tt).

(** [fetchThoughts(page, append)]; the callers in the store supply the
    defaults [page = 1] and [append = false] themselves. *)
Definition fetchThoughts (page : Z) (append : bool) (st : FeedState)
  : Task FeedPayload unit :=
  let st1 := set_error "" (set_loading true st) in
  let endpoint := feed_endpoint (thoughtFilter st1) page in
  let fetchFunction := feed_fetcher (thoughtFilter st1) in
  Suspended st1 (mkRequest fetchFunction endpoint GET None)
            (fetchThoughts_resume page append).

(** ** addThought *)

(** [addThought] after the [await]s.  [onError] tells whether the caller
    passed a callback; a callback is taken not to throw. *)
Definition addThought_resume (optimisticThought : Thought) (onError : bool)
    (reply : Reply ApiRecord) (state : FeedState) : Settled unit :=
  let remove s :=
    set_thoughts
      (createRemoveUpdater (_id optimisticThought) (thoughts s)) s in
  let try_block : Try (FeedState * list string) :=
    match reply with
    | Rejects e => Thrown e
    | Responds _ (Thrown e) => Thrown e
    | Responds ok (Normal data) =>
        if ok && truthy (rec_message data) && truthy (rec_id data) then
          let processedThought := processThought data in
          Normal
            (set_thoughts
               (createReplaceUpdater (Some (_id optimisticThought))
                  processedThought (thoughts state)) state,
             [])
        else
          let errorMessage := extractErrorMessage data "Invalid input" in
          Normal (remove state, if onError then [errorMessage] else [])
    end in
  let after_try : FeedState * list string :=
    match try_block with
    | Normal r => r
    | Thrown error =>
        let errorMessage :=
          handleApiError error
            "Could not post your thought. Please try again."
            "Please log in to post a thought" in
        if (err_message error =? "Authentication required")%string && onError
        then (remove state, [errorMessage])
        else (set_error errorMessage (remove state), [])
    end in
  mkSettled (set_loading false (fst after_try)) (snd after_try) (Returned tt).

Definition addThought (message : string) (onError : bool) (st : FeedState)
  : Task ApiRecord unit :=
  let st1 := set_loading true (set_error "" st) in
  let optimisticThought := createOptimisticThought message in
  let st2 := set_thoughts (optimisticThought :: thoughts st1) st1 in
  Suspended st2
    (mkRequest AuthenticatedFetch (API_URL ++ "/thoughts")%string POST
       (Some message))
    (addThought_resume optimisticThought onError).

(** ** handleLike *)

Definition handleLike_resume (thoughtId : string) (currentThought : Thought)
    (reply : Reply ApiRecord) (state : FeedState) : Settled (option string) :=
  let try_block : Try (Settled (option string)) :=
    match reply with
    | Rejects e => Thrown e
    | Responds true (Thrown e) => Thrown e
    | Responds true (Normal updatedThought) =>
        let processedThought := processThought updatedThought in
        Normal
          (mkSettled
             (set_thoughts
                (createReplaceUpdater (rec_id updatedThought)
                   processedThought (thoughts state)) state)
             [] (Returned (rec_id updatedThought)))
    | Responds false _ => Thrown (mkError "Failed to update like status")
    end in
  match try_block with
  | Normal s => s
  | Thrown error =>
      let st1 :=
        set_thoughts
          (createOptimisticUpdater thoughtId (fun _ => currentThought)
             (thoughts state)) state in
      let errorMessage :=
        handleApiError error
          "Could not like the thought. Please try again."
          "Please log in to like thoughts." in
      mkSettled (set_error errorMessage st1) [] (Rejected error)
  end.

(** [handleLike(thoughtId)] resolves to [undefined] ([None]) when the
    thought is absent, and to [updatedThought._id] on success. *)
Definition handleLike (thoughtId : string) (st : FeedState)
  : Task ApiRecord (option string) :=
  match find_thought thoughtId (thoughts st) with
  | None => Finished (mkSettled st [] (Returned None))
  | Some currentThought =>
      let optimisticUpdate := createOptimisticLikeUpdate currentThought in
      Suspended
        (set_thoughts
           (createOptimisticUpdater thoughtId (fun _ => optimisticUpdate)
              (thoughts st)) st)
        (mkRequest AuthenticatedFetch
           (API_URL ++ "/thoughts/" ++ thoughtId ++ "/like")%string POST None)
        (handleLike_resume thoughtId currentThought)
  end.

(** ** updateThought and deleteThought *)

(** The object [updateThought] and [deleteThought] resolve to:
    [{ success, error, thought }], a field being [None] when not given. *)
Record ActionResult := mkResult {
  success : bool;
  res_error : option string;
  res_thought : option Thought
}.

Definition updateThought_resume (thoughtId : string) (currentThought : Thought)
    (reply : Reply ApiRecord) (state : FeedState) : Settled ActionResult :=
  let revert s :=
    set_thoughts
      (createOptimisticUpdater thoughtId (fun _ => currentThought)
         (thoughts s)) s in
  let catch_block error s :=
    let errorMessage :=
      handleApiError error
        "Could not update the thought. Please try again."
        "Please log in to edit thoughts." in
    mkSettled (revert s) [] (Returned (mkResult false (Some errorMessage) None)) in
  match reply with
  | Rejects e => catch_block e state
  | Responds true (Thrown e) => catch_block e state
  | Responds true (Normal updatedThought) =>
      let processedThought := processThought updatedThought in
      mkSettled
        (set_thoughts
           (createReplaceUpdater (rec_id updatedThought) processedThought
              (thoughts state)) state)
        [] (Returned (mkResult true None (Some processedThought)))
  | Responds false json =>
      let st1 := revert state in
      match json with
      | Thrown e => catch_block e st1
      | Normal errorData =>
          let errorMessage :=
            extractErrorMessage errorData "Failed to update thought" in
          mkSettled st1 [] (Returned (mkResult false (Some errorMessage) None))
      end
  end.

Definition updateThought (thoughtId message : string) (st : FeedState)
  : Task ApiRecord ActionResult :=
  match find_thought thoughtId (thoughts st) with
  | None =>
      Finished
        (mkSettled st [] (Returned (mkResult false (Some "Thought not found") None)))
  | Some currentThought =>
      let optimisticUpdate :=
        mkThought (_id currentThought) message (createdAt currentThought)
          (hearts currentThought) (likesCount currentThought)
          (owner currentThought) (isLikedByUser currentThought) true in
      Suspended
        (set_thoughts
           (createOptimisticUpdater thoughtId (fun _ => optimisticUpdate)
              (thoughts st)) st)
        (mkRequest AuthenticatedFetch
           (API_URL ++ "/thoughts/" ++ thoughtId)%string PUT (Some message))
        (updateThought_resume thoughtId currentThought)
  end.

Definition deleteThought_resume (thoughtToDelete : Thought)
    (reply : Reply ApiRecord) (state : FeedState) : Settled ActionResult :=
  let reinsert s :=
    set_thoughts (reinsertThought (thoughts s) thoughtToDelete) s in
  let catch_block error s :=
    let errorMessage :=
      handleApiError error
        "Could not delete the thought. Please try again."
        "Please log in to delete thoughts." in
    mkSettled (reinsert s) [] (Returned (mkResult false (Some errorMessage) None)) in
  match reply with
  | Rejects e => catch_block e state
  | Responds true _ =>
      mkSettled state [] (Returned (mkResult true None None))
  | Responds false json =>
      let st1 := reinsert state in
      match json with
      | Thrown e => catch_block e st1
      | Normal errorData =>
          let errorMessage :=
            extractErrorMessage errorData "Failed to delete thought" in
          mkSettled st1 [] (Returned (mkResult false (Some errorMessage) None))
      end
  end.

Definition deleteThought (thoughtId : string) (st : FeedState)
  : Task ApiRecord ActionResult :=
  match find_thought thoughtId (thoughts st) with
  | None =>
      Finished
        (mkSettled st [] (Returned (mkResult false (Some "Thought not found") None)))
  | Some thoughtToDelete =>
      Suspended
        (set_thoughts (createRemoveUpdater thoughtId (thoughts st)) st)
        (mkRequest AuthenticatedFetch
           (API_URL ++ "/thoughts/" ++ thoughtId)%string DELETE None)
        (deleteThought_resume thoughtToDelete)
  end.

(** ** The synchronous actions

    Each returns at once; the promise of the [fetchThoughts] it starts is
    dropped.  The task is that fetch, and its store is the store as the
    action leaves it. *)

Definition idle {P} (st : FeedState) : Task P unit :=
  Finished (mkSettled st [] (Returned tt)).

(** A [set] that runs after the call that started the task has returned. *)
Definition then_set {P A} (f : FeedState -> FeedState) (t : Task P A)
  : Task P A :=
  match t with
  | Finished s => Finished (mkSettled (f (final s)) (notified s) (completion s))
  | Suspended st req resume => Suspended (f st) req resume
  end.

Definition changePage (page : Z) (st : FeedState) : Task FeedPayload unit :=
  if negb (page =? currentPage st) then fetchThoughts page false st
  else idle st.

(** [currentPage + 1] is the sum of the code as long as it is a safe
    integer. *)
Definition loadMore (st : FeedState) : Task FeedPayload unit :=
  if negb (loading st) && hasMore st
  then fetchThoughts (currentPage st + 1) true st
  else idle st.

Definition setViewMode (mode : string) (st : FeedState)
  : Task FeedPayload unit :=
  if (mode =? "infinite")%string
  then then_set (set_viewMode mode)
         (fetchThoughts 1 false (set_thoughts [] (set_currentPage 1 st)))
  else idle (set_viewMode mode st).

Definition setThoughtFilter (filter : string) (st : FeedState)
  : Task FeedPayload unit :=
  fetchThoughts 1 false
    (set_thoughts [] (set_currentPage 1 (set_thoughtFilter filter st))).

End Store.

(** ** Calls and reachable stores *)

(** A call of a store action, indexed by the type of the response body it
    reads and the type its promise resolves to. *)
Inductive Call : Type -> Type -> Type :=
| CallFetchThoughts (page : Z) (append : bool) : Call FeedPayload unit
| CallAddThought (message : string) (onError : bool) : Call ApiRecord unit
| CallHandleLike (thoughtId : string) : Call ApiRecord (option string)
| CallUpdateThought (thoughtId message : string) : Call ApiRecord ActionResult
| CallDeleteThought (thoughtId : string) : Call ApiRecord ActionResult
| CallChangePage (page : Z) : Call FeedPayload unit
| CallLoadMore : Call FeedPayload unit
| CallSetViewMode (mode : string) : Call FeedPayload unit
| CallSetThoughtFilter (filter : string) : Call FeedPayload unit.

Definition perform {I : Imports} {P A} (c : Call P A)
  : FeedState -> Task P A :=
  match c in Call P A return FeedState -> Task P A with
  | CallFetchThoughts page append => fetchThoughts page append
  | CallAddThought message onError => addThought message onError
  | CallHandleLike thoughtId => handleLike thoughtId
  | CallUpdateThought thoughtId message => updateThought thoughtId message
  | CallDeleteThought thoughtId => deleteThought thoughtId
  | CallChangePage page => changePage page
  | CallLoadMore => loadMore
  | CallSetViewMode mode => setViewMode mode
  | CallSetThoughtFilter filter => setThoughtFilter filter
  end.

Definition is_handleLike {P A} (c : Call P A) : bool :=
  match c with
  | CallHandleLike _ => true
  | _ => false
  end.

(** The stores a session reaches when each action runs to its end before
    the next one starts. *)
Inductive reachable {I : Imports} : FeedState -> Prop :=
| reach_initial : reachable initialState
| reach_settle {P A} (c : Call P A) (reply : Reply P) (st : FeedState) :
    reachable st -> reachable (final (settle (perform c st) reply)).

(** The ids of a list of thoughts, in order. *)
Definition ids (l : list Thought) : list string := map _id l.

(** ** The imports as the specification describes them *)

Definition or_else {A} (a : option A) (d : A) : A :=
  match a with
  | Some x => x
  | None => d
  end.

(** Modelled from the spec: [processThought] of [utils/thoughtUtils], which
    is not among the sources; "normalize(record) -> Thought".  The record's
    fields are kept, an absent field takes the empty value, and the result
    is not optimistic. *)
Definition spec_processThought (r : ApiRecord) : Thought :=
  {| _id := or_else (rec_id r) "";
     message := or_else (rec_message r) "";
     createdAt := or_else (rec_createdAt r) "";
     hearts := or_else (rec_hearts r) 0;
     likesCount := or_else (rec_likesCount r) 0;
     owner := rec_owner r;
     isLikedByUser := or_else (rec_isLikedByUser r) false;
     isOptimistic := false |}.

(** Modelled from the spec: [createOptimisticThought] of [utils/thoughtUtils],
    which is not among the sources; "buildOptimistic(message) -> Thought",
    a placeholder with a temporary id and [isOptimistic = true]. *)
Definition spec_createOptimisticThought (message : string) : Thought :=
  {| _id := "temp-id";
     message := message;
     createdAt := "";
     hearts := 0;
     likesCount := 0;
     owner := None;
     isLikedByUser := false;
     isOptimistic := true |}.

(** Modelled from the spec: [createOptimisticLikeUpdate] of
    [utils/thoughtUtils], which is not among the sources;
    "buildOptimisticLike(thought) -> Thought", which "flips liked, adjusts
    likesCount". *)
Definition spec_createOptimisticLikeUpdate (t : Thought) : Thought :=
  {| _id := _id t;
     message := message t;
     createdAt := createdAt t;
     hearts := hearts t;
     likesCount := if isLikedByUser t then likesCount t - 1 else likesCount t + 1;
     owner := owner t;
     isLikedByUser := negb (isLikedByUser t);
     isOptimistic := isOptimistic t |}.

(** Modelled from the spec: [reinsertThought] of [utils/thoughtUtils], which
    is not among the sources; "re-inserts the removed entry at its original
    position" in a list kept "newest-first": before the first thought that
    is older. *)
Fixpoint spec_reinsertThought (l : list Thought) (t : Thought) : list Thought :=
  match l with
  | [] => [t]
  | x :: rest =>
      if String.ltb (createdAt x) (createdAt t) then t :: l
      else x :: spec_reinsertThought rest t
  end.

(** Modelled from the spec: [handleApiError] of [utils/thoughtUtils], which
    is not among the sources; "classifyError(err, genericFallback,
    authFallback) -> string": the generic fallback, "unless classified as an
    authentication error, which maps to an auth-specific fallback". *)
Definition spec_handleApiError (e : JsError) (genericFallback authFallback : string)
  : string :=
  if (err_message e =? "Authentication required")%string then authFallback
  else genericFallback.

(** Modelled from the spec: [extractErrorMessage] of [utils/thoughtUtils],
    which is not among the sources; "extractErrorMessage(payload, fallback)
    -> string": the message of the payload, or the fallback. *)
Definition spec_extractErrorMessage (payload : ApiRecord) (fallback : string)
  : string :=
  if truthy (rec_message payload) then or_else (rec_message payload) fallback
  else fallback.

(** Modelled from the spec: [createOptimisticUpdater] of
    [utils/thoughtUtils], which is not among the sources; the update is
    applied "in place" to the thought with the id. *)
Definition spec_createOptimisticUpdater (id : string)
    (updateFn : Thought -> Thought) (l : list Thought) : list Thought :=
  map (fun t => if (_id t =? id)%string then updateFn t else t) l.

(** Modelled from the spec: [createRemoveUpdater] of [utils/thoughtUtils],
    which is not among the sources; "removeById". *)
Definition spec_createRemoveUpdater (id : string) (l : list Thought)
  : list Thought :=
  filter (fun t => negb (_id t =? id)%string) l.

(** [thought._id === id] for an [id] that may be [undefined]. *)
Definition has_id (id : option string) (t : Thought) : bool :=
  match id with
  | Some i => (_id t =? i)%string
  | None => false
  end.

(** Modelled from the spec: [createReplaceUpdater] of [utils/thoughtUtils],
    which is not among the sources; "replaceById". *)
Definition spec_createReplaceUpdater (id : option string) (newThought : Thought)
    (l : list Thought) : list Thought :=
  map (fun t => if has_id id t then newThought else t) l.

(** Modelled from the spec: the imports of the store, none of which is among
    the sources.  [API_URL] of [config/api] is the empty prefix, so that the
    endpoints read as the specification lists them. *)
Definition specImports : Imports :=
  {| API_URL := "";
     processThought := spec_processThought;
     createOptimisticThought := spec_createOptimisticThought;
     createOptimisticLikeUpdate := spec_createOptimisticLikeUpdate;
     reinsertThought := spec_reinsertThought;
     handleApiError := spec_handleApiError;
     extractErrorMessage := spec_extractErrorMessage;
     createOptimisticUpdater := spec_createOptimisticUpdater;
     createRemoveUpdater := spec_createRemoveUpdater;
     createReplaceUpdater := spec_createReplaceUpdater |}.

(** What the proofs below ask of the list helpers, when they ask anything. *)
Definition removes_by_id (I : Imports) : Prop :=
  forall id l, createRemoveUpdater id l = spec_createRemoveUpdater id l.

Definition updates_by_id (I : Imports) : Prop :=
  forall id updateFn l,
    createOptimisticUpdater id updateFn l
    = spec_createOptimisticUpdater id updateFn l.

Definition like_keeps_id (I : Imports) : Prop :=
  forall t, _id (createOptimisticLikeUpdate t) = _id t.

(** A record of the API with the given id and message. *)
Definition record (id msg : string) : ApiRecord :=
  mkApiRecord (Some id) (Some msg) None None None None None.

(** ** Predicates of the statements *)

(** What C1 asks of a call [setThoughtFilter(filter)]: page 1, an empty
    list, the filter stored, and a request in flight that goes through
    [authenticatedFetch] to the endpoint of the caller's own thoughts. *)
Definition fetches_own_thoughts {I : Imports} (filter : string)
    (st : FeedState) : Prop :=
  let t := setThoughtFilter filter st in
  currentPage (store_of t) = 1
  /\ thoughts (store_of t) = []
  /\ thoughtFilter (store_of t) = filter
  /\ request_of t
     = Some (mkRequest AuthenticatedFetch
               (API_URL ++ "/users/me/thoughts?page=1&limit=10")%string
               GET None).

(** The action raises [loading] before it suspends at its request and
    clears it when it ends, whatever the reply and whatever the store has
    become in between. *)
Definition brackets_loading {P A} (t : Task P A) : Prop :=
  match t with
  | Finished _ => False
  | Suspended st1 _ resume =>
      loading st1 = true
      /\ forall reply st2, loading (final (resume reply st2)) = false
  end.

(** The action never writes [loading]. *)
Definition keeps_loading {P A} (st : FeedState) (t : Task P A) : Prop :=
  match t with
  | Finished s => loading (final s) = loading st
  | Suspended st1 _ resume =>
      loading st1 = loading st
      /\ forall reply st2, loading (final (resume reply st2)) = loading st2
  end.

(** The replies that make [addThought] fail: the fetch function throws, the
    body cannot be parsed, the response is not OK, or the body lacks
    [message] or [_id]. *)
Definition addThought_fails (reply : Reply ApiRecord) : bool :=
  match reply with
  | Rejects _ => true
  | Responds _ (Thrown _) => true
  | Responds ok (Normal data) =>
      negb (ok && truthy (rec_message data) && truthy (rec_id data))
  end.

(** The error the [catch] block of [handleLike] receives, if the reply takes
    the action there. *)
Definition handleLike_caught (reply : Reply ApiRecord) : option JsError :=
  match reply with
  | Rejects e => Some e
  | Responds true (Thrown e) => Some e
  | Responds true (Normal _) => None
  | Responds false _ => Some (mkError "Failed to update like status")
  end.

(** The promise of the action never rejects. *)
Definition never_rejects {P A} (t : Task P A) : Prop :=
  match t with
  | Finished s => exists a, completion s = Returned a
  | Suspended _ _ resume =>
      forall reply st2, exists a, completion (resume reply st2) = Returned a
  end.

(** The replies that take [fetchThoughts] to its [catch] block: the fetch
    function throws, the response is not OK, the body cannot be parsed, or
    the body holds no array. *)
Definition fetchThoughts_fails (reply : Reply FeedPayload) : bool :=
  match reply with
  | Rejects _ => true
  | Responds false _ => true
  | Responds true (Thrown _) => true
  | Responds true (Normal data) =>
      match thoughtsArray_of data with
      | Thrown _ => true
      | Normal _ => false
      end
  end.

(** Two stores that differ in [thoughts] at most. *)
Definition same_but_thoughts (s1 s2 : FeedState) : Prop :=
  loading s1 = loading s2
  /\ error s1 = error s2
  /\ currentPage s1 = currentPage s2
  /\ totalPages s1 = totalPages s2
  /\ totalThoughts s1 = totalThoughts s2
  /\ hasMore s1 = hasMore s2
  /\ viewMode s1 = viewMode s2
  /\ thoughtFilter s1 = thoughtFilter s2.

(** The action writes no field but [thoughts], before and after its
    request, calls no callback, and its promise resolves to a result. *)
Definition writes_thoughts_only {P A} (st : FeedState) (t : Task P A) : Prop :=
  match t with
  | Finished s =>
      same_but_thoughts st (final s) /\ notified s = []
      /\ exists r, completion s = Returned r
  | Suspended st1 _ resume =>
      same_but_thoughts st st1
      /\ forall reply st2,
           same_but_thoughts st2 (final (resume reply st2))
           /\ notified (resume reply st2) = []
           /\ exists r, completion (resume reply st2) = Returned r
  end.


(** The replace helper replaces by id. *)
Definition replaces_by_id (I : Imports) : Prop :=
  forall id newThought l,
    createReplaceUpdater id newThought l
    = spec_createReplaceUpdater id newThought l.

(** The server accepts the new thought: the response is OK and its body has
    [message] and [_id]. *)
Definition accepted_by_server (ok : bool) (data : ApiRecord) : bool :=
  ok && truthy (rec_message data) && truthy (rec_id data).

(** The error the [catch] block of [addThought] receives, if the reply takes
    the action there. *)
Definition addThought_caught (reply : Reply ApiRecord) : option JsError :=
  match reply with
  | Rejects e => Some e
  | Responds _ (Thrown e) => Some e
  | Responds _ (Normal _) => None
  end.

(** The replies on which [updateThought] reverts its edit. *)
Definition updateThought_fails (reply : Reply ApiRecord) : bool :=
  match reply with
  | Rejects _ => true
  | Responds true (Thrown _) => true
  | Responds true (Normal _) => false
  | Responds false _ => true
  end.

Definition is_setThoughtFilter {P A} (c : Call P A) : bool :=
  match c with
  | CallSetThoughtFilter _ => true
  | _ => false
  end.

Definition is_setViewMode {P A} (c : Call P A) : bool :=
  match c with
  | CallSetViewMode _ => true
  | _ => false
  end.

(** The request of a feed page, as [fetchThoughts] issues it under the
    filter. *)
Definition feed_request {I : Imports} (filter : string) (page : Z) : Request :=
  mkRequest (feed_fetcher filter) (feed_endpoint filter page) GET None.

(** [{ ...currentThought, message, isOptimistic: true }]. *)
Definition edited (currentThought : Thought) (message : string) : Thought :=
  mkThought (_id currentThought) message (createdAt currentThought)
    (hearts currentThought) (likesCount currentThought)
    (owner currentThought) (isLikedByUser currentThought) true.

(** Resumes an action with the store as it is [now], which other actions
    may have written since the request went out. *)
Definition settle_in {P A} (t : Task P A) (reply : Reply P) (now : FeedState)
  : Settled A :=
  match t with
  | Finished s => s
  | Suspended _ _ resume => resume reply now
  end.



(** * Properties *)

(** ** Helper lemmas *)

Lemma find_thought_absent (thoughtId : string) (l : list Thought) :
  ~ In thoughtId (ids l) -> find_thought thoughtId l = None.
Proof.
  unfold find_thought, ids.
  induction l as [|t l IH]; simpl; intros Hnot; [reflexivity|].
  destruct (String.eqb_spec (_id t) thoughtId) as [Heq|Hne].
  - exfalso. apply Hnot. now left.
  - apply IH. intros Hin. apply Hnot. now right.
Qed.

Lemma find_thought_present (thoughtId : string) (l : list Thought) (t : Thought) :
  find_thought thoughtId l = Some t -> In t l /\ _id t = thoughtId.
Proof.
  unfold find_thought. intros H. apply find_some in H as [Hin Heq].
  split; [exact Hin|]. now apply String.eqb_eq.
Qed.

Lemma nodup_append {A} (l1 l2 : list A) :
  NoDup (l1 ++ l2)
  <-> NoDup l1 /\ NoDup l2 /\ (forall a, In a l1 -> ~ In a l2).
Proof.
  split.
  - intros H. split; [|split].
    + eapply NoDup_app_remove_r; eassumption.
    + eapply NoDup_app_remove_l; eassumption.
    + induction l1 as [|x l1 IH]; simpl in *; [tauto|].
      apply NoDup_cons_iff in H as [Hx Hrest].
      intros a [->|Hin] Hin2.
      * apply Hx. apply in_or_app. now right.
      * exact (IH Hrest a Hin Hin2).
  - intros (H1 & H2 & H3). now apply NoDup_app.
Qed.

(** ** setThoughtFilter (C1) *)

(** C1, as stated, fails: [fetchThoughts] compares the filter with ['my'], so
    after [setThoughtFilter("mine")] the request in flight is a plain [fetch]
    of the public endpoint. *)
Lemma setThoughtFilter_mine_is_public :
  request_of (setThoughtFilter (I := specImports) "mine" initialState)
  = Some (mkRequest PlainFetch "/thoughts?page=1&limit=10" GET None)
  /\ ~ fetches_own_thoughts (I := specImports) "mine" initialState.
Proof.
  split; [reflexivity|].
  intros (_ & _ & _ & H). discriminate H.
Qed.

(** C1, amended: [setThoughtFilter(filter)] resets [currentPage] to 1, clears
    [thoughts], stores the filter, and starts a fetch of page 1; for the
    filter ['my'] the fetch goes through [authenticatedFetch] to
    [/users/me/thoughts], for every other filter through plain [fetch] to
    [/thoughts]. *)
Theorem setThoughtFilter_my_fetches_own {I : Imports} (filter : string)
    (st : FeedState) :
  fetches_own_thoughts "my" st
  /\ let t := setThoughtFilter filter st in
     currentPage (store_of t) = 1
     /\ thoughts (store_of t) = []
     /\ thoughtFilter (store_of t) = filter
     /\ request_of t
        = Some (if (filter =? "my")%string
                then mkRequest AuthenticatedFetch
                       (API_URL ++ "/users/me/thoughts?page=1&limit=10")%string
                       GET None
                else mkRequest PlainFetch
                       (API_URL ++ "/thoughts?page=1&limit=10")%string
                       GET None).
Proof.
  split.
  - repeat split.
  - cbn. repeat split.
    unfold feed_endpoint, feed_fetcher.
    destruct (filter =? "my")%string; reflexivity.
Qed.

(** ** Unique ids (C2) *)

(** C2, as stated, fails: [fetchThoughts] concatenates and never compares
    ids.  After page 1 has delivered the record "a", a second page that
    carries "a" again (the feed moved on the server in between) is appended
    whole, and the reachable store holds "a" twice. *)
Lemma reachable_duplicate_id :
  let page1 := BareArray [record "a" "first"] in
  let page2 := BareArray [record "a" "first"; record "b" "second"] in
  let s1 :=
    final (settle (fetchThoughts (I := specImports) 1 false initialState)
             (Responds true (Normal page1))) in
  let s2 :=
    final (settle (fetchThoughts (I := specImports) 2 true s1)
             (Responds true (Normal page2))) in
  reachable (I := specImports) s2
  /\ ids (thoughts s1) = ["a"]
  /\ ids (thoughts s2) = ["a"; "a"; "b"]
  /\ ~ NoDup (ids (thoughts s2)).
Proof.
  cbv zeta. split; [|split; [|split]].
  - apply (reach_settle (CallFetchThoughts 2 true)).
    apply (reach_settle (CallFetchThoughts 1 false)).
    apply reach_initial.
  - reflexivity.
  - reflexivity.
  - intros H. apply NoDup_cons_iff in H as [H _]. apply H. now left.
Qed.

(** C2, amended: a successful [fetchThoughts(p, true)] sets [thoughts] to the
    list at hand followed by the whole processed page; the ids of the result
    are unique exactly when those of the list at hand are, those of the page
    are, and no id of the page is in the list already. *)
Theorem fetchThoughts_append_concatenates {I : Imports} (page : Z)
    (st : FeedState) (data : FeedPayload) (records : list ApiRecord)
    (Harray : thoughtsArray_of data = Normal records) :
  let s := final (settle (fetchThoughts page true st)
                    (Responds true (Normal data))) in
  let fetched := map processThought records in
  thoughts s = thoughts st ++ fetched
  /\ (NoDup (ids (thoughts s))
      <-> NoDup (ids (thoughts st)) /\ NoDup (ids fetched)
          /\ forall id, In id (ids (thoughts st)) -> ~ In id (ids fetched)).
Proof.
  cbv zeta.
  assert (Hth : thoughts (final (settle (fetchThoughts page true st)
                                   (Responds true (Normal data))))
                = thoughts st ++ map processThought records).
  { cbn. unfold fetchThoughts_resume, fetchThoughts_try.
    rewrite Harray. reflexivity. }
  split; [exact Hth|].
  rewrite Hth. unfold ids. rewrite map_app. apply nodup_append.
Qed.

Lemma fetchThoughts_append_concatenates_witness :
  let st := set_thoughts [spec_processThought (record "a" "first")] initialState in
  let data := BareArray [record "b" "second"] in
  let s := final (settle (fetchThoughts (I := specImports) 2 true st)
                    (Responds true (Normal data))) in
  thoughtsArray_of data = Normal [record "b" "second"]
  /\ thoughts s = thoughts st ++ map spec_processThought [record "b" "second"]
  /\ NoDup (ids (thoughts s)).
Proof.
  cbv zeta. split; [reflexivity|].
  destruct (fetchThoughts_append_concatenates (I := specImports) 2
              (set_thoughts [spec_processThought (record "a" "first")]
                 initialState)
              (BareArray [record "b" "second"]) [record "b" "second"]
              eq_refl) as [Hth Hnd].
  split; [exact Hth|].
  apply Hnd. split; [|split].
  - repeat constructor. intros [].
  - repeat constructor. intros [].
  - intros id [<-|[]] [H|[]]. discriminate H.
Defined.

(** ** The loading flag (C3) *)

(** C3, as stated, fails: [handleLike] does not touch [loading].  With one
    thought fetched and nothing else going on, [handleLike] of that thought
    has its request in flight while [loading] is false. *)
Lemma handleLike_in_flight_not_loading :
  let s1 :=
    final (settle (fetchThoughts (I := specImports) 1 false initialState)
             (Responds true (Normal (BareArray [record "a" "first"])))) in
  let t := handleLike (I := specImports) "a" s1 in
  request_of t
  = Some (mkRequest AuthenticatedFetch "/thoughts/a/like" POST None)
  /\ loading (store_of t) = false
  /\ ~ brackets_loading t.
Proof.
  cbv zeta. split; [reflexivity|]. split; [reflexivity|].
  cbn. intros [H _]. discriminate H.
Qed.

(** C3, amended: [fetchThoughts] and [addThought] set [loading] to true
    before they suspend at the request and set it to false at the end;
    [handleLike], [updateThought] and [deleteThought] never write
    [loading]. *)
Theorem loading_set_by_fetch_and_add_only {I : Imports} :
  (forall page append st, brackets_loading (fetchThoughts page append st))
  /\ (forall message onError st, brackets_loading (addThought message onError st))
  /\ (forall thoughtId st, keeps_loading st (handleLike thoughtId st))
  /\ (forall thoughtId message st,
        keeps_loading st (updateThought thoughtId message st))
  /\ (forall thoughtId st, keeps_loading st (deleteThought thoughtId st)).
Proof.
  split; [|split; [|split; [|split]]].
  - intros page append st. cbn. split; [reflexivity|].
    intros reply st2. reflexivity.
  - intros message onError st. cbn. split; [reflexivity|].
    intros reply st2. reflexivity.
  - intros thoughtId st. unfold handleLike.
    destruct (find_thought thoughtId (thoughts st)); cbn; [|reflexivity].
    split; [reflexivity|]. intros reply st2. unfold handleLike_resume.
    destruct reply as [e|[|] [r|e]]; reflexivity.
  - intros thoughtId message st. unfold updateThought.
    destruct (find_thought thoughtId (thoughts st)); cbn; [|reflexivity].
    split; [reflexivity|]. intros reply st2. unfold updateThought_resume.
    destruct reply as [e|[|] [r|e]]; reflexivity.
  - intros thoughtId st. unfold deleteThought.
    destruct (find_thought thoughtId (thoughts st)); cbn; [|reflexivity].
    split; [reflexivity|]. intros reply st2. unfold deleteThought_resume.
    destruct reply as [e|[|] [r|e]]; reflexivity.
Qed.

(** ** addThought rolls back (C4) *)

Lemma remove_absent_id (id : string) (l : list Thought) :
  ~ In id (ids l) -> spec_createRemoveUpdater id l = l.
Proof.
  unfold spec_createRemoveUpdater, ids.
  induction l as [|t l IH]; simpl; intros Hnot; [reflexivity|].
  destruct (String.eqb_spec (_id t) id) as [Heq|Hne]; simpl.
  - exfalso. apply Hnot. now left.
  - f_equal. apply IH. intros Hin. apply Hnot. now right.
Qed.

Lemma remove_placeholder (t : Thought) (l : list Thought) :
  ~ In (_id t) (ids l) -> spec_createRemoveUpdater (_id t) (t :: l) = l.
Proof.
  intros Hnot. unfold spec_createRemoveUpdater. simpl.
  rewrite String.eqb_refl. simpl. now apply remove_absent_id.
Qed.

(** C4: [addThought] puts the placeholder at the head of [thoughts] before
    the request, and when the request fails the list after the call is the
    list before the call.  The remove helper removes by id, and the
    temporary id of the placeholder is the id of no thought in the list. *)
Theorem addThought_failure_restores_thoughts {I : Imports} (message : string)
    (onError : bool) (st : FeedState) (reply : Reply ApiRecord)
    (Hremove : removes_by_id I)
    (Hfresh : ~ In (_id (createOptimisticThought message)) (ids (thoughts st)))
    (Hfails : addThought_fails reply = true) :
  let t := addThought message onError st in
  thoughts (store_of t) = createOptimisticThought message :: thoughts st
  /\ thoughts (final (settle t reply)) = thoughts st.
Proof.
  cbv zeta. split; [reflexivity|].
  pose proof (remove_placeholder _ _ Hfresh) as Hback.
  rewrite <- Hremove in Hback.
  cbn. unfold addThought_resume.
  destruct reply as [e|ok [data|e]]; cbn in Hfails |- *.
  - destruct (_ && onError); cbn; exact Hback.
  - apply negb_true_iff in Hfails. rewrite Hfails. cbn. exact Hback.
  - destruct (_ && onError); cbn; exact Hback.
Qed.

Lemma addThought_failure_restores_thoughts_witness :
  let st := set_thoughts [spec_processThought (record "a" "first")] initialState in
  let reply : Reply ApiRecord := Rejects (mkError "Failed to fetch") in
  removes_by_id specImports
  /\ ~ In (_id (spec_createOptimisticThought "hi")) (ids (thoughts st))
  /\ addThought_fails reply = true
  /\ thoughts (final (settle (addThought (I := specImports) "hi" false st) reply))
     = thoughts st.
Proof.
  cbv zeta.
  assert (H1 : removes_by_id specImports) by (intros id l; reflexivity).
  assert (H2 : ~ In (_id (createOptimisticThought (Imports := specImports) "hi"))
                 (ids (thoughts (set_thoughts
                    [spec_processThought (record "a" "first")] initialState)))).
  { simpl. intros [H|[]]. discriminate H. }
  split; [exact H1|]. split; [exact H2|]. split; [reflexivity|].
  exact (proj2 (addThought_failure_restores_thoughts (I := specImports)
                  "hi" false _ (Rejects (mkError "Failed to fetch"))
                  H1 H2 eq_refl)).
Defined.

(** ** handleLike reverts and re-raises (C5) *)

Lemma find_after_put_back (id : string) (c x : Thought) (l : list Thought) :
  _id c = id ->
  find_thought id l = Some x ->
  find_thought id (spec_createOptimisticUpdater id (fun _ => c) l) = Some c.
Proof.
  intros Hc. unfold find_thought, spec_createOptimisticUpdater.
  induction l as [|t l IH]; simpl; [discriminate|].
  destruct (String.eqb_spec (_id t) id) as [Heq|Hne].
  - intros _. rewrite Hc, String.eqb_refl. reflexivity.
  - intros H. apply String.eqb_neq in Hne. rewrite Hne. now apply IH.
Qed.

Lemma put_back_after_update (id : string) (c o : Thought) (l : list Thought) :
  _id o = id ->
  spec_createOptimisticUpdater id (fun _ => c)
    (spec_createOptimisticUpdater id (fun _ => o) l)
  = spec_createOptimisticUpdater id (fun _ => c) l.
Proof.
  intros Ho. unfold spec_createOptimisticUpdater. rewrite map_map.
  apply map_ext. intros t.
  destruct (String.eqb_spec (_id t) id) as [Heq|Hne].
  - rewrite Ho, String.eqb_refl. reflexivity.
  - apply String.eqb_neq in Hne. now rewrite Hne.
Qed.

Lemma put_back_same (c : Thought) (l : list Thought) :
  NoDup (ids l) -> In c l ->
  spec_createOptimisticUpdater (_id c) (fun _ => c) l = l.
Proof.
  unfold spec_createOptimisticUpdater, ids.
  induction l as [|t l IH]; simpl; intros Hnd Hin; [reflexivity|].
  apply NoDup_cons_iff in Hnd as [Ht Hnd].
  destruct (String.eqb_spec (_id t) (_id c)) as [Heq|Hne].
  - destruct Hin as [->|Hin].
    + f_equal. transitivity (map (fun x : Thought => x) l); [|apply map_id].
      apply map_ext_in. intros x Hx.
      destruct (String.eqb_spec (_id x) (_id c)) as [Hxc|]; [|reflexivity].
      exfalso. apply Ht. rewrite <- Hxc. now apply in_map.
    + exfalso. apply Ht. rewrite Heq. now apply in_map.
  - destruct Hin as [->|Hin]; [congruence|].
    f_equal. now apply IH.
Qed.

(** C5: when the request of [handleLike(thoughtId)] fails for a thought that
    is in the list, the thought found under [thoughtId] afterwards is the
    snapshot taken before the toggle (so its liked flag and its likes count
    are the ones before), and the whole list is as before if its ids are
    unique; [error] is set to the message for the failure; the promise
    rejects with the failure.  No other action ever rejects.  The update
    helper updates by id and the optimistic like keeps the id. *)
Theorem handleLike_failure_reverts_and_rethrows {I : Imports}
    (thoughtId : string) (st : FeedState) (currentThought : Thought)
    (reply : Reply ApiRecord) (failure : JsError)
    (Hupdate : updates_by_id I) (Hlike : like_keeps_id I)
    (Hfound : find_thought thoughtId (thoughts st) = Some currentThought)
    (Hfails : handleLike_caught reply = Some failure) :
  let s := settle (handleLike thoughtId st) reply in
  (find_thought thoughtId (thoughts (final s)) = Some currentThought
   /\ (NoDup (ids (thoughts st)) -> thoughts (final s) = thoughts st)
   /\ error (final s)
      = handleApiError failure
          "Could not like the thought. Please try again."
          "Please log in to like thoughts."
   /\ completion s = Rejected failure)
  /\ (forall P A (c : Call P A) st',
        is_handleLike c = false -> never_rejects (perform c st')).
Proof.
  cbv zeta. split.
  - destruct (find_thought_present _ _ _ Hfound) as [Hin Hid].
    assert (Hth : thoughts (final (settle (handleLike thoughtId st) reply))
                  = spec_createOptimisticUpdater thoughtId
                      (fun _ => currentThought) (thoughts st)).
    { unfold handleLike. rewrite Hfound. cbn. unfold handleLike_resume.
      destruct reply as [e|[|] [r|e]]; cbn in Hfails; try discriminate;
        cbn; rewrite !Hupdate; apply put_back_after_update;
        rewrite Hlike; exact Hid. }
    split; [|split; [|split]].
    + rewrite Hth. eapply find_after_put_back; eassumption.
    + intros Hnd. rewrite Hth, <- Hid. now apply put_back_same.
    + unfold handleLike. rewrite Hfound. cbn. unfold handleLike_resume.
      destruct reply as [e|[|] [r|e]]; cbn in Hfails; try discriminate;
        injection Hfails as <-; reflexivity.
    + unfold handleLike. rewrite Hfound. cbn. unfold handleLike_resume.
      destruct reply as [e|[|] [r|e]]; cbn in Hfails; try discriminate;
        injection Hfails as <-; reflexivity.
  - intros P A c st' Hc.
    destruct c as [page append|message onError|tid|tid message|tid|page
                  | |mode|filter];
      cbn in Hc; try discriminate; cbn.
    + intros r st2. now exists tt.
    + intros r st2. now exists tt.
    + unfold updateThought.
      destruct (find_thought tid (thoughts st')); cbn; [|eauto].
      intros r st2. unfold updateThought_resume.
      destruct r as [e|[|] [d|e]]; cbn; eauto.
    + unfold deleteThought.
      destruct (find_thought tid (thoughts st')); cbn; [|eauto].
      intros r st2. unfold deleteThought_resume.
      destruct r as [e|[|] [d|e]]; cbn; eauto.
    + unfold changePage. destruct (negb _); cbn; [|eauto].
      intros r st2. now exists tt.
    + unfold loadMore. destruct (_ && _); cbn; [|eauto].
      intros r st2. now exists tt.
    + unfold setViewMode. destruct (_ =? _)%string; cbn; [|eauto].
      intros r st2. now exists tt.
    + intros r st2. now exists tt.
Qed.

Lemma handleLike_failure_reverts_and_rethrows_witness :
  let a := mkThought "a" "first" "" 0 3 None false false in
  let st := set_thoughts [a] initialState in
  let reply : Reply ApiRecord := Rejects (mkError "Failed to fetch") in
  let s := settle (handleLike (I := specImports) "a" st) reply in
  updates_by_id specImports
  /\ like_keeps_id specImports
  /\ find_thought "a" (thoughts st) = Some a
  /\ handleLike_caught reply = Some (mkError "Failed to fetch")
  /\ find_thought "a" (thoughts (final s)) = Some a
  /\ completion s = Rejected (mkError "Failed to fetch").
Proof.
  cbv zeta.
  assert (H1 : updates_by_id specImports) by (intros id f l; reflexivity).
  assert (H2 : like_keeps_id specImports) by (intros t; reflexivity).
  split; [exact H1|]. split; [exact H2|].
  split; [reflexivity|]. split; [reflexivity|].
  destruct (handleLike_failure_reverts_and_rethrows (I := specImports) "a"
              (set_thoughts [mkThought "a" "first" "" 0 3 None false false]
                 initialState)
              (mkThought "a" "first" "" 0 3 None false false)
              (Rejects (mkError "Failed to fetch"))
              (mkError "Failed to fetch") H1 H2 eq_refl eq_refl)
    as [(Hfind & _ & _ & Hrej) _].
  split; [exact Hfind|exact Hrej].
Defined.

(** ** fetchThoughts fails (C6) *)

Lemma fetchThoughts_fails_throws {I : Imports} (page : Z) (append : bool)
    (reply : Reply FeedPayload) (state : FeedState) :
  fetchThoughts_fails reply = true ->
  exists e, fetchThoughts_try page append reply state = Thrown e.
Proof.
  unfold fetchThoughts_fails, fetchThoughts_try.
  destruct reply as [e|[|] [data|e]]; eauto.
  destruct (thoughtsArray_of data); [discriminate|eauto].
Qed.

(** C6: when [fetchThoughts] fails, [error] is the fixed message and
    [thoughts] is the list before the call; and after the call [loading] is
    false, whatever the reply was. *)
Theorem fetchThoughts_failure_keeps_thoughts {I : Imports} (page : Z)
    (append : bool) (st : FeedState) (reply : Reply FeedPayload)
    (Hfails : fetchThoughts_fails reply = true) :
  let s := settle (fetchThoughts page append st) reply in
  error (final s) = "Could not load happy thoughts. Please try again later."
  /\ thoughts (final s) = thoughts st
  /\ loading (final s) = false
  /\ forall any, loading (final (settle (fetchThoughts page append st) any))
                = false.
Proof.
  cbv zeta. cbn. unfold fetchThoughts_resume.
  destruct (fetchThoughts_fails_throws page append reply
              (set_error "" (set_loading true st)) Hfails) as [e ->].
  repeat split.
Qed.

Lemma fetchThoughts_failure_keeps_thoughts_witness :
  let st := set_thoughts [spec_processThought (record "a" "first")] initialState in
  let reply : Reply FeedPayload := Responds false (Thrown (mkError "no body")) in
  let s := settle (fetchThoughts (I := specImports) 2 true st) reply in
  fetchThoughts_fails reply = true
  /\ error (final s) = "Could not load happy thoughts. Please try again later."
  /\ thoughts (final s) = thoughts st
  /\ loading (final s) = false.
Proof.
  cbv zeta. split; [reflexivity|].
  destruct (fetchThoughts_failure_keeps_thoughts (I := specImports) 2 true
              (set_thoughts [spec_processThought (record "a" "first")]
                 initialState)
              (Responds false (Thrown (mkError "no body"))) eq_refl)
    as (He & Ht & Hl & _).
  split; [exact He|]. split; [exact Ht|exact Hl].
Defined.

(** ** Derived pagination (C7) *)

Lemma ceil_div_is_ceiling (a : Z) :
  PAGE_SIZE * (ceil_div a PAGE_SIZE - 1) < a <= PAGE_SIZE * ceil_div a PAGE_SIZE.
Proof.
  unfold ceil_div, PAGE_SIZE. Z.div_mod_to_equations. lia.
Qed.

(** C7: when a successful response carries neither [pagination.totalPages]
    nor [pagination.hasNextPage], [totalPages] is the ceiling of
    [total / PAGE_SIZE] for the [total] stored in [totalThoughts], and
    [hasMore] tells whether the page holds exactly [PAGE_SIZE] records; with
    fewer than [PAGE_SIZE] records [hasMore] is false.  The [total] is a safe
    integer, so that the quotient and ceiling of the code are the exact
    ones. *)
Theorem fetchThoughts_derives_pagination {I : Imports} (page : Z)
    (append : bool) (st : FeedState) (data : FeedPayload)
    (records : list ApiRecord)
    (Harray : thoughtsArray_of data = Normal records)
    (HnoPages : pg_totalPages (pagination_of data) = None)
    (HnoNext : pg_hasNextPage (pagination_of data) = None)
    (Hsafe : safe_integer
               (num_or (total_of data) (Z.of_nat (List.length records)))) :
  let s := final (settle (fetchThoughts page append st)
                    (Responds true (Normal data))) in
  let total := totalThoughts s in
  let returned := Z.of_nat (List.length records) in
  total = num_or (total_of data) returned
  /\ totalPages s = ceil_div total PAGE_SIZE
  /\ PAGE_SIZE * (totalPages s - 1) < total <= PAGE_SIZE * totalPages s
  /\ hasMore s = (returned =? PAGE_SIZE)
  /\ (returned < PAGE_SIZE -> hasMore s = false).
Proof.
  cbv zeta. cbn. unfold fetchThoughts_resume, fetchThoughts_try.
  rewrite Harray, HnoPages, HnoNext. cbn. rewrite length_map.
  split; [reflexivity|]. split; [reflexivity|].
  split; [apply ceil_div_is_ceiling|]. split; [reflexivity|].
  intros Hlt. apply Z.eqb_neq. lia.
Qed.

Lemma fetchThoughts_derives_pagination_witness :
  let data := Envelope (Some [record "a" "first"; record "b" "second"]) None
                (Some 12) in
  let s := final (settle (fetchThoughts (I := specImports) 2 false initialState)
                    (Responds true (Normal data))) in
  thoughtsArray_of data = Normal [record "a" "first"; record "b" "second"]
  /\ pg_totalPages (pagination_of data) = None
  /\ pg_hasNextPage (pagination_of data) = None
  /\ safe_integer (num_or (total_of data) 2)
  /\ totalThoughts s = 12
  /\ totalPages s = 2
  /\ hasMore s = false.
Proof.
  cbv zeta.
  assert (Hsafe : safe_integer
            (num_or (total_of (Envelope
                       (Some [record "a" "first"; record "b" "second"]) None
                       (Some 12)))
               (Z.of_nat (List.length [record "a" "first"; record "b" "second"]))))
    by (unfold safe_integer, MAX_SAFE_INTEGER; cbn; lia).
  split; [reflexivity|]. split; [reflexivity|]. split; [reflexivity|].
  split; [exact Hsafe|].
  destruct (fetchThoughts_derives_pagination (I := specImports) 2 false
              initialState
              (Envelope (Some [record "a" "first"; record "b" "second"]) None
                 (Some 12))
              [record "a" "first"; record "b" "second"]
              eq_refl eq_refl eq_refl Hsafe)
    as (Htotal & Hpages & _ & _ & Hmore).
  split; [exact Htotal|]. split.
  - rewrite Hpages, Htotal. reflexivity.
  - apply Hmore. reflexivity.
Defined.

(** ** A thought that is not there (C8) *)

(** C8: for a [thoughtId] that is the id of no thought in the list,
    [updateThought] and [deleteThought] finish at once with
    [{success: false, error: 'Thought not found'}]: no request is issued and
    the store is the one before the call. *)
Theorem absent_thought_not_found {I : Imports} (thoughtId message : string)
    (st : FeedState) (Habsent : ~ In thoughtId (ids (thoughts st))) :
  let notFound :=
    mkSettled st [] (Returned (mkResult false (Some "Thought not found") None)) in
  updateThought thoughtId message st = Finished notFound
  /\ deleteThought thoughtId st = Finished notFound.
Proof.
  cbv zeta. unfold updateThought, deleteThought.
  rewrite (find_thought_absent _ _ Habsent). split; reflexivity.
Qed.

Lemma absent_thought_not_found_witness :
  let st := set_thoughts [spec_processThought (record "a" "first")] initialState in
  ~ In "b" (ids (thoughts st))
  /\ request_of (updateThought (I := specImports) "b" "edited" st) = None
  /\ store_of (updateThought (I := specImports) "b" "edited" st) = st
  /\ request_of (deleteThought (I := specImports) "b" st) = None
  /\ store_of (deleteThought (I := specImports) "b" st) = st.
Proof.
  cbv zeta.
  assert (H : ~ In "b" (ids (thoughts (set_thoughts
                 [spec_processThought (record "a" "first")] initialState)))).
  { simpl. intros [H|[]]. discriminate H. }
  split; [exact H|].
  destruct (absent_thought_not_found (I := specImports) "b" "edited" _ H)
    as [Hu Hd].
  rewrite Hu, Hd. repeat split.
Defined.

(** ** updateThought and deleteThought write [thoughts] only (C9) *)

Lemma same_but_thoughts_refl (s : FeedState) : same_but_thoughts s s.
Proof. repeat split. Qed.

Lemma same_but_thoughts_set (l : list Thought) (s : FeedState) :
  same_but_thoughts s (set_thoughts l s).
Proof. repeat split. Qed.

(** C9: in every outcome [updateThought] and [deleteThought] leave [error]
    and every other field but [thoughts] as they are; the outcome is the
    result object the promise resolves to. *)
Theorem update_delete_write_thoughts_only {I : Imports} :
  (forall thoughtId message st,
      writes_thoughts_only st (updateThought thoughtId message st))
  /\ (forall thoughtId st,
        writes_thoughts_only st (deleteThought thoughtId st)).
Proof.
  split.
  - intros thoughtId message st. unfold updateThought.
    destruct (find_thought thoughtId (thoughts st)); cbn.
    + split; [apply same_but_thoughts_set|].
      intros reply st2. unfold updateThought_resume.
      destruct reply as [e|[|] [d|e]]; cbn;
        (split; [repeat split | split; [reflexivity | eauto]]).
    + split; [apply same_but_thoughts_refl|]. split; [reflexivity|eauto].
  - intros thoughtId st. unfold deleteThought.
    destruct (find_thought thoughtId (thoughts st)); cbn.
    + split; [apply same_but_thoughts_set|].
      intros reply st2. unfold deleteThought_resume.
      destruct reply as [e|[|] [d|e]]; cbn;
        (split; [repeat split | split; [reflexivity | eauto]]).
    + split; [apply same_but_thoughts_refl|]. split; [reflexivity|eauto].
Qed.

(** ** A rejection nobody hears of (C10) *)




(** * Further properties of the store *)

(** ** Shared lemmas *)

Lemma fetchThoughts_settle_ok {I : Imports} (page : Z) (append : bool)
    (st : FeedState) (data : FeedPayload) (records : list ApiRecord) :
  thoughtsArray_of data = Normal records ->
  final (settle (fetchThoughts page append st) (Responds true (Normal data)))
  = mkFeedState
      (if append then thoughts st ++ map processThought records
       else map processThought records)
      false ""
      (num_or (pg_currentPage (pagination_of data)) page)
      (num_or (pg_totalPages (pagination_of data))
         (ceil_div (num_or (total_of data) (Z.of_nat (List.length records)))
            PAGE_SIZE))
      (num_or (total_of data) (Z.of_nat (List.length records)))
      (match pg_hasNextPage (pagination_of data) with
       | Some b => b
       | None => Z.of_nat (List.length records) =? PAGE_SIZE
       end)
      (viewMode st) (thoughtFilter st).
Proof.
  intros Harray. cbn. unfold fetchThoughts_resume, fetchThoughts_try.
  rewrite Harray. cbn. rewrite length_map. reflexivity.
Qed.

Lemma fetchThoughts_settle_failed {I : Imports} (page : Z) (append : bool)
    (st : FeedState) (reply : Reply FeedPayload) :
  fetchThoughts_fails reply = true ->
  final (settle (fetchThoughts page append st) reply)
  = mkFeedState (thoughts st) false
      "Could not load happy thoughts. Please try again later."
      (currentPage st) (totalPages st) (totalThoughts st) (hasMore st)
      (viewMode st) (thoughtFilter st).
Proof.
  intros Hfails. cbn. unfold fetchThoughts_resume.
  destruct (fetchThoughts_fails_throws page append reply
              (set_error "" (set_loading true st)) Hfails) as [e ->].
  reflexivity.
Qed.

(** What [fetchThoughts] leaves alone and what it always does when it
    resumes, whatever the reply. *)
Lemma fetchThoughts_resume_frame {I : Imports} (page : Z) (append : bool)
    (reply : Reply FeedPayload) (st2 : FeedState) :
  let s := final (fetchThoughts_resume page append reply st2) in
  loading s = false
  /\ viewMode s = viewMode st2
  /\ thoughtFilter s = thoughtFilter st2.
Proof.
  cbv zeta. unfold fetchThoughts_resume, fetchThoughts_try.
  destruct reply as [e|[|] [data|e]]; try (repeat split; fail).
  destruct (thoughtsArray_of data); repeat split.
Qed.

(** ** changePage *)

(** X1: once [changePage(page)] has settled on a successful response that
    carries no [pagination.currentPage], [currentPage] is [page], and a
    second [changePage(page)] issues no request and leaves the store as it
    is. *)
Theorem changePage_again_is_idle {I : Imports} (page : Z) (st : FeedState)
    (data : FeedPayload) (records : list ApiRecord)
    (Harray : thoughtsArray_of data = Normal records)
    (HnoPage : pg_currentPage (pagination_of data) = None) :
  let s := final (settle (changePage page st) (Responds true (Normal data))) in
  currentPage s = page /\ changePage page s = idle s.
Proof.
  cbv zeta.
  assert (Hpage : currentPage (final (settle (changePage page st)
                                        (Responds true (Normal data)))) = page).
  { unfold changePage. destruct (Z.eqb_spec page (currentPage st)) as [Heq|Hne].
    - cbn. now symmetry.
    - cbn [negb]. rewrite (fetchThoughts_settle_ok _ _ _ _ _ Harray), HnoPage.
      reflexivity. }
  split; [exact Hpage|].
  unfold changePage at 1. rewrite Hpage, Z.eqb_refl. reflexivity.
Qed.

Lemma changePage_again_is_idle_witness :
  let data := BareArray [record "c" "third"] in
  let s := final (settle (changePage (I := specImports) 3 initialState)
                    (Responds true (Normal data))) in
  thoughtsArray_of data = Normal [record "c" "third"]
  /\ pg_currentPage (pagination_of data) = None
  /\ currentPage s = 3
  /\ request_of (changePage (I := specImports) 3 s) = None.
Proof.
  cbv zeta. split; [reflexivity|]. split; [reflexivity|].
  destruct (changePage_again_is_idle (I := specImports) 3 initialState
              (BareArray [record "c" "third"]) [record "c" "third"]
              eq_refl eq_refl) as [Hpage Hidle].
  split; [exact Hpage|]. rewrite Hidle. reflexivity.
Defined.

(** X2: when the fetch of [changePage(page)] fails, [currentPage] and the
    filter are as before the call, so calling [changePage(page)] again
    issues the same request again. *)
Theorem changePage_retries_after_failure {I : Imports} (page : Z)
    (st : FeedState) (reply : Reply FeedPayload)
    (Hother : page <> currentPage st)
    (Hfails : fetchThoughts_fails reply = true) :
  let s := final (settle (changePage page st) reply) in
  currentPage s = currentPage st
  /\ request_of (changePage page st)
     = Some (feed_request (thoughtFilter st) page)
  /\ request_of (changePage page s) = request_of (changePage page st).
Proof.
  cbv zeta. unfold changePage at 1 2 4.
  apply Z.eqb_neq in Hother. rewrite Hother. cbn [negb].
  rewrite (fetchThoughts_settle_failed _ _ _ _ Hfails).
  split; [reflexivity|]. split; [reflexivity|].
  unfold changePage. cbn [currentPage]. rewrite Hother. reflexivity.
Qed.

Lemma changePage_retries_after_failure_witness :
  let reply : Reply FeedPayload := Rejects (mkError "Failed to fetch") in
  let s := final (settle (changePage (I := specImports) 2 initialState) reply) in
  2 <> currentPage initialState
  /\ fetchThoughts_fails reply = true
  /\ request_of (changePage (I := specImports) 2 s)
     = Some (mkRequest PlainFetch "/thoughts?page=2&limit=10" GET None).
Proof.
  cbv zeta.
  assert (H : 2 <> currentPage initialState) by (cbn; lia).
  split; [exact H|]. split; [reflexivity|].
  destruct (changePage_retries_after_failure (I := specImports) 2 initialState
              (Rejects (mkError "Failed to fetch")) H eq_refl)
    as (_ & Hreq & Hagain).
  rewrite Hagain, Hreq. reflexivity.
Defined.

(** ** loadMore *)

(** X3: while the request of a [fetchThoughts], an [addThought] or a
    [loadMore] is in flight, [loadMore] issues no request and leaves the
    store as it is. *)
Theorem loadMore_idle_while_fetching {I : Imports} (st : FeedState) :
  (forall page append,
      let busy := store_of (fetchThoughts page append st) in
      loadMore busy = idle busy)
  /\ (forall message onError,
        let busy := store_of (addThought message onError st) in
        loadMore busy = idle busy)
  /\ (let busy := store_of (loadMore st) in loadMore busy = idle busy).
Proof.
  split; [|split].
  - intros page append. reflexivity.
  - intros message onError. reflexivity.
  - cbv zeta. destruct (negb (loading st) && hasMore st) eqn:Hguard.
    + assert (Hs : store_of (loadMore st) = set_error "" (set_loading true st))
        by (unfold loadMore; rewrite Hguard; reflexivity).
      rewrite Hs. reflexivity.
    + assert (Hs : store_of (loadMore st) = st)
        by (unfold loadMore; rewrite Hguard; reflexivity).
      rewrite Hs. unfold loadMore. rewrite Hguard. reflexivity.
Qed.

(** X4: when [loadMore] has settled on a successful response that carries no
    [pagination.hasNextPage] and a number of records other than
    [PAGE_SIZE], or that carries [hasNextPage: false], the next [loadMore]
    issues no request. *)
Theorem loadMore_stops_at_end_of_feed {I : Imports} (st : FeedState)
    (data : FeedPayload) (records : list ApiRecord)
    (Harray : thoughtsArray_of data = Normal records)
    (Hend : pg_hasNextPage (pagination_of data) = Some false
            \/ (pg_hasNextPage (pagination_of data) = None
                /\ Z.of_nat (List.length records) <> PAGE_SIZE)) :
  let s := final (settle (loadMore st) (Responds true (Normal data))) in
  loadMore s = idle s.
Proof.
  cbv zeta. destruct (negb (loading st) && hasMore st) eqn:Hguard.
  - assert (Hs : loadMore st = fetchThoughts (currentPage st + 1) true st)
      by (unfold loadMore; rewrite Hguard; reflexivity).
    rewrite Hs, (fetchThoughts_settle_ok _ _ _ _ _ Harray).
    unfold loadMore. cbn [loading hasMore].
    destruct Hend as [->|[-> Hlen]].
    + reflexivity.
    + apply Z.eqb_neq in Hlen. rewrite Hlen. reflexivity.
  - assert (Hs : loadMore st = idle st)
      by (unfold loadMore; rewrite Hguard; reflexivity).
    rewrite Hs. cbn [settle idle final]. exact Hs.
Qed.

Lemma loadMore_stops_at_end_of_feed_witness :
  let data := BareArray [record "k" "eleventh"] in
  let s := final (settle (loadMore (I := specImports) initialState)
                    (Responds true (Normal data))) in
  thoughtsArray_of data = Normal [record "k" "eleventh"]
  /\ (pg_hasNextPage (pagination_of data) = None
      /\ Z.of_nat (List.length [record "k" "eleventh"]) <> PAGE_SIZE)
  /\ hasMore s = false
  /\ request_of (loadMore (I := specImports) s) = None.
Proof.
  cbv zeta.
  assert (H : pg_hasNextPage (pagination_of (BareArray [record "k" "eleventh"]))
              = None
              /\ Z.of_nat (List.length [record "k" "eleventh"]) <> PAGE_SIZE).
  { split; [reflexivity|]. cbn. unfold PAGE_SIZE. lia. }
  split; [reflexivity|]. split; [exact H|]. split; [reflexivity|].
  rewrite (loadMore_stops_at_end_of_feed (I := specImports) initialState
             (BareArray [record "k" "eleventh"]) [record "k" "eleventh"]
             eq_refl (or_intror H)).
  reflexivity.
Defined.

(** X5: on a store that is not loading and has more, [loadMore] requests
    page [currentPage + 1] under the filter; on a successful response
    without [pagination.currentPage] the processed page is appended to
    [thoughts] and [currentPage] advances by one, so that a further
    [loadMore], if there is more, requests page [currentPage + 2].  The
    pages from [currentPage] to [currentPage + 2] are safe integers, so that
    the sums of the code are the exact ones. *)
Theorem loadMore_appends_and_advances {I : Imports} (st : FeedState)
    (data : FeedPayload) (records : list ApiRecord)
    (Hidle : loading st = false) (Hmore : hasMore st = true)
    (Harray : thoughtsArray_of data = Normal records)
    (HnoPage : pg_currentPage (pagination_of data) = None)
    (Hsafe : safe_integer (currentPage st))
    (Hsafe2 : safe_integer (currentPage st + 2)) :
  let s := final (settle (loadMore st) (Responds true (Normal data))) in
  request_of (loadMore st)
  = Some (feed_request (thoughtFilter st) (currentPage st + 1))
  /\ thoughts s = thoughts st ++ map processThought records
  /\ currentPage s = currentPage st + 1
  /\ (hasMore s = true ->
      request_of (loadMore s)
      = Some (feed_request (thoughtFilter st) (currentPage st + 2))).
Proof.
  cbv zeta.
  assert (Hs : loadMore st = fetchThoughts (currentPage st + 1) true st)
    by (unfold loadMore; rewrite Hidle, Hmore; reflexivity).
  rewrite Hs, (fetchThoughts_settle_ok _ _ _ _ _ Harray), HnoPage.
  split; [reflexivity|]. split; [reflexivity|]. split; [reflexivity|].
  cbn [hasMore]. intros Hnext. unfold loadMore.
  cbn [loading hasMore currentPage num_or]. rewrite Hnext.
  cbn [negb andb fetchThoughts request_of thoughtFilter set_error set_loading].
  replace (currentPage st + 1 + 1) with (currentPage st + 2) by lia.
  reflexivity.
Qed.

Lemma loadMore_appends_and_advances_witness :
  let st := set_thoughts [spec_processThought (record "a" "first")] initialState in
  let data := Envelope (Some [record "k" "eleventh"])
                (Some (mkPagination None None (Some true))) None in
  let s := final (settle (loadMore (I := specImports) st)
                    (Responds true (Normal data))) in
  loading st = false
  /\ hasMore st = true
  /\ thoughtsArray_of data = Normal [record "k" "eleventh"]
  /\ pg_currentPage (pagination_of data) = None
  /\ safe_integer (currentPage st)
  /\ safe_integer (currentPage st + 2)
  /\ ids (thoughts s) = ["a"; "k"]
  /\ currentPage s = 2
  /\ request_of (loadMore (I := specImports) s)
     = Some (mkRequest PlainFetch "/thoughts?page=3&limit=10" GET None).
Proof.
  cbv zeta.
  assert (H1 : safe_integer (currentPage (set_thoughts
                 [spec_processThought (record "a" "first")] initialState)))
    by (unfold safe_integer, MAX_SAFE_INTEGER; cbn; lia).
  assert (H2 : safe_integer (currentPage (set_thoughts
                 [spec_processThought (record "a" "first")] initialState) + 2))
    by (unfold safe_integer, MAX_SAFE_INTEGER; cbn; lia).
  split; [reflexivity|]. split; [reflexivity|].
  split; [reflexivity|]. split; [reflexivity|].
  split; [exact H1|]. split; [exact H2|].
  destruct (loadMore_appends_and_advances (I := specImports)
              (set_thoughts [spec_processThought (record "a" "first")]
                 initialState)
              (Envelope (Some [record "k" "eleventh"])
                 (Some (mkPagination None None (Some true))) None)
              [record "k" "eleventh"] eq_refl eq_refl eq_refl eq_refl H1 H2)
    as (_ & Hth & Hpage & Hnext).
  split; [rewrite Hth; reflexivity|].
  split; [exact Hpage|]. rewrite (Hnext eq_refl). reflexivity.
Defined.

(** ** setViewMode *)

(** X6: [setViewMode(mode)] stores the mode, and the mode is still stored
    when the fetch it may have started has settled.  For ['infinite'] the
    list is emptied, the page is 1 and page 1 is requested under the
    filter; for every other mode no request is issued and nothing but
    [viewMode] changes. *)
Theorem setViewMode_stores_mode {I : Imports} (mode : string) (st : FeedState)
    (reply : Reply FeedPayload) :
  let t := setViewMode mode st in
  viewMode (store_of t) = mode
  /\ viewMode (final (settle t reply)) = mode
  /\ if (mode =? "infinite")%string
     then request_of t = Some (feed_request (thoughtFilter st) 1)
          /\ thoughts (store_of t) = []
          /\ currentPage (store_of t) = 1
     else t = idle (set_viewMode mode st).
Proof.
  cbv zeta. unfold setViewMode.
  destruct (mode =? "infinite")%string.
  - cbn [fetchThoughts then_set store_of settle].
    split; [reflexivity|]. split; [|repeat split].
    destruct (fetchThoughts_resume_frame 1 false reply
                (set_viewMode mode
                   (set_error ""
                      (set_loading true
                         (set_thoughts [] (set_currentPage 1 st))))))
      as (_ & Hmode & _).
    rewrite Hmode. reflexivity.
  - repeat split.
Qed.

(** ** Pagination metadata *)

(** X7: when a successful response carries [pagination.currentPage],
    [pagination.totalPages] (both other than 0) and
    [pagination.hasNextPage], the store takes all three from the response,
    whatever page was requested and however many records came. *)
Theorem fetchThoughts_prefers_server_pagination {I : Imports} (page : Z)
    (append : bool) (st : FeedState) (data : FeedPayload)
    (records : list ApiRecord) (serverPage serverPages : Z) (next : bool)
    (Harray : thoughtsArray_of data = Normal records)
    (Hmeta : pagination_of data
             = mkPagination (Some serverPage) (Some serverPages) (Some next))
    (Hpage : serverPage <> 0) (Hpages : serverPages <> 0) :
  let s := final (settle (fetchThoughts page append st)
                    (Responds true (Normal data))) in
  currentPage s = serverPage
  /\ totalPages s = serverPages
  /\ hasMore s = next.
Proof.
  cbv zeta. rewrite (fetchThoughts_settle_ok _ _ _ _ _ Harray), Hmeta.
  cbn. apply Z.eqb_neq in Hpage, Hpages. rewrite Hpage, Hpages.
  repeat split.
Qed.

Lemma fetchThoughts_prefers_server_pagination_witness :
  let data := Envelope (Some [record "a" "first"])
                (Some (mkPagination (Some 4) (Some 7) (Some true))) (Some 61) in
  let s := final (settle (fetchThoughts (I := specImports) 1 false initialState)
                    (Responds true (Normal data))) in
  thoughtsArray_of data = Normal [record "a" "first"]
  /\ pagination_of data = mkPagination (Some 4) (Some 7) (Some true)
  /\ 4 <> 0 /\ 7 <> 0
  /\ currentPage s = 4 /\ totalPages s = 7 /\ hasMore s = true.
Proof.
  cbv zeta.
  assert (H4 : 4 <> 0) by lia. assert (H7 : 7 <> 0) by lia.
  split; [reflexivity|]. split; [reflexivity|].
  split; [exact H4|]. split; [exact H7|].
  exact (fetchThoughts_prefers_server_pagination (I := specImports) 1 false
           initialState
           (Envelope (Some [record "a" "first"])
              (Some (mkPagination (Some 4) (Some 7) (Some true))) (Some 61))
           [record "a" "first"] 4 7 true eq_refl eq_refl H4 H7).
Defined.

(** X8: a 0 in the response counts as absent: with [total: 0],
    [pagination.currentPage: 0] and [pagination.totalPages: 0] the store
    takes [totalThoughts] from the number of records, [currentPage] from
    the page requested and [totalPages] from the ceiling of
    [totalThoughts / PAGE_SIZE]. *)
Theorem fetchThoughts_zero_counts_as_absent {I : Imports} (page : Z)
    (append : bool) (st : FeedState) (data : FeedPayload)
    (records : list ApiRecord) (next : option bool)
    (Harray : thoughtsArray_of data = Normal records)
    (Hmeta : pagination_of data = mkPagination (Some 0) (Some 0) next)
    (Htotal : total_of data = Some 0) :
  let s := final (settle (fetchThoughts page append st)
                    (Responds true (Normal data))) in
  totalThoughts s = Z.of_nat (List.length records)
  /\ currentPage s = page
  /\ PAGE_SIZE * (totalPages s - 1) < totalThoughts s <= PAGE_SIZE * totalPages s.
Proof.
  cbv zeta. rewrite (fetchThoughts_settle_ok _ _ _ _ _ Harray), Hmeta, Htotal.
  cbn [totalThoughts currentPage totalPages pg_currentPage pg_totalPages
       num_or Z.eqb].
  split; [reflexivity|]. split; [reflexivity|]. apply ceil_div_is_ceiling.
Qed.

Lemma fetchThoughts_zero_counts_as_absent_witness :
  let data := Envelope (Some [record "a" "first"; record "b" "second"])
                (Some (mkPagination (Some 0) (Some 0) None)) (Some 0) in
  let s := final (settle (fetchThoughts (I := specImports) 5 false initialState)
                    (Responds true (Normal data))) in
  thoughtsArray_of data = Normal [record "a" "first"; record "b" "second"]
  /\ pagination_of data = mkPagination (Some 0) (Some 0) None
  /\ total_of data = Some 0
  /\ totalThoughts s = 2
  /\ currentPage s = 5.
Proof.
  cbv zeta. split; [reflexivity|]. split; [reflexivity|]. split; [reflexivity|].
  destruct (fetchThoughts_zero_counts_as_absent (I := specImports) 5 false
              initialState
              (Envelope (Some [record "a" "first"; record "b" "second"])
                 (Some (mkPagination (Some 0) (Some 0) None)) (Some 0))
              [record "a" "first"; record "b" "second"] None
              eq_refl eq_refl eq_refl)
    as (Ht & Hp & _).
  split; [exact Ht|exact Hp].
Defined.

(** ** addThought *)

Lemma replace_placeholder (t newThought : Thought) (l : list Thought) :
  ~ In (_id t) (ids l) ->
  spec_createReplaceUpdater (Some (_id t)) newThought (t :: l) = newThought :: l.
Proof.
  intros Hnot. unfold spec_createReplaceUpdater. cbn [map has_id].
  rewrite String.eqb_refl. f_equal.
  transitivity (map (fun x : Thought => x) l); [|apply map_id].
  apply map_ext_in. intros x Hx.
  destruct (String.eqb_spec (_id x) (_id t)) as [Heq|]; [|reflexivity].
  exfalso. apply Hnot. rewrite <- Heq. now apply in_map.
Qed.

(** X9: when the server accepts the new thought, the placeholder at the
    head of [thoughts] gives way to the processed record and the rest of
    the list is as before the call; [error] is empty, [loading] is false
    and no callback is called.  The replace helper replaces by id, and the
    temporary id of the placeholder is the id of no thought in the list. *)
Theorem addThought_success_replaces_placeholder {I : Imports}
    (message : string) (onError : bool) (st : FeedState) (ok : bool)
    (data : ApiRecord)
    (Hreplace : replaces_by_id I)
    (Hfresh : ~ In (_id (createOptimisticThought message)) (ids (thoughts st)))
    (Haccepted : accepted_by_server ok data = true) :
  let s := settle (addThought message onError st) (Responds ok (Normal data)) in
  thoughts (final s) = processThought data :: thoughts st
  /\ error (final s) = ""
  /\ loading (final s) = false
  /\ notified s = [].
Proof.
  cbv zeta. unfold accepted_by_server in Haccepted.
  cbn. unfold addThought_resume. rewrite Haccepted. cbn.
  rewrite Hreplace. split; [|repeat split].
  now apply replace_placeholder.
Qed.

Lemma addThought_success_replaces_placeholder_witness :
  let st := set_thoughts [spec_processThought (record "a" "first")] initialState in
  let s := settle (addThought (I := specImports) "hi" false st)
             (Responds true (Normal (record "x1" "hi"))) in
  replaces_by_id specImports
  /\ ~ In (_id (spec_createOptimisticThought "hi")) (ids (thoughts st))
  /\ accepted_by_server true (record "x1" "hi") = true
  /\ ids (thoughts (final s)) = ["x1"; "a"].
Proof.
  cbv zeta.
  assert (H1 : replaces_by_id specImports) by (intros id p l; reflexivity).
  assert (H2 : ~ In (_id (createOptimisticThought (Imports := specImports) "hi"))
                 (ids (thoughts (set_thoughts
                    [spec_processThought (record "a" "first")] initialState)))).
  { simpl. intros [H|[]]. discriminate H. }
  split; [exact H1|]. split; [exact H2|]. split; [reflexivity|].
  destruct (addThought_success_replaces_placeholder (I := specImports) "hi"
              false _ true (record "x1" "hi") H1 H2 eq_refl) as [Hth _].
  rewrite Hth. reflexivity.
Defined.

(** X10: when the request of [addThought] throws (or its body cannot be
    parsed), the message for the failure goes to exactly one place: to the
    [onError] callback, with [error] left empty, if the failure says
    "Authentication required" and a callback was passed; to [error], with
    no callback called, in every other case. *)
Theorem addThought_failure_routes_message {I : Imports} (message : string)
    (onError : bool) (st : FeedState) (reply : Reply ApiRecord)
    (failure : JsError)
    (Hcaught : addThought_caught reply = Some failure) :
  let s := settle (addThought message onError st) reply in
  let errorMessage :=
    handleApiError failure
      "Could not post your thought. Please try again."
      "Please log in to post a thought" in
  if (err_message failure =? "Authentication required")%string && onError
  then notified s = [errorMessage] /\ error (final s) = ""
  else notified s = [] /\ error (final s) = errorMessage.
Proof.
  cbv zeta. cbn. unfold addThought_resume.
  destruct reply as [e|ok [data|e]]; cbn in Hcaught; try discriminate;
    injection Hcaught as ->;
    destruct ((err_message failure =? "Authentication required")%string
              && onError); split; reflexivity.
Qed.

Lemma addThought_failure_routes_message_witness :
  let reply : Reply ApiRecord := Rejects (mkError "Authentication required") in
  let s := settle (addThought (I := specImports) "hi" true initialState) reply in
  addThought_caught reply = Some (mkError "Authentication required")
  /\ notified s = ["Please log in to post a thought"]
  /\ error (final s) = "".
Proof.
  cbv zeta. split; [reflexivity|].
  exact (addThought_failure_routes_message (I := specImports) "hi" true
           initialState (Rejects (mkError "Authentication required"))
           (mkError "Authentication required") eq_refl).
Defined.



(** ** handleLike *)

(** X12: for a [thoughtId] that is the id of no thought in the list,
    [handleLike] finishes at once: no request, the store unchanged, the
    promise resolved to [undefined]. *)
Theorem handleLike_absent_is_noop {I : Imports} (thoughtId : string)
    (st : FeedState) (Habsent : ~ In thoughtId (ids (thoughts st))) :
  handleLike thoughtId st = Finished (mkSettled st [] (Returned None)).
Proof.
  unfold handleLike. now rewrite (find_thought_absent _ _ Habsent).
Qed.

Lemma handleLike_absent_is_noop_witness :
  ~ In "a" (ids (thoughts initialState))
  /\ request_of (handleLike (I := specImports) "a" initialState) = None
  /\ store_of (handleLike (I := specImports) "a" initialState) = initialState.
Proof.
  assert (H : ~ In "a" (ids (thoughts initialState))) by (intros []).
  split; [exact H|].
  rewrite (handleLike_absent_is_noop (I := specImports) "a" initialState H).
  split; reflexivity.
Defined.

Lemma replace_after_update (id : string) (newThought o : Thought)
    (l : list Thought) :
  _id o = id ->
  spec_createReplaceUpdater (Some id) newThought
    (spec_createOptimisticUpdater id (fun _ => o) l)
  = spec_createReplaceUpdater (Some id) newThought l.
Proof.
  intros Ho. unfold spec_createReplaceUpdater, spec_createOptimisticUpdater.
  rewrite map_map. apply map_ext. intros t. cbn [has_id].
  destruct (String.eqb_spec (_id t) id) as [Heq|Hne].
  - rewrite Ho, String.eqb_refl. reflexivity.
  - apply String.eqb_neq in Hne. now rewrite Hne.
Qed.

(** X13: when the like is confirmed with a record that carries the id of
    the thought, the list after the call is the list before the call with
    the processed record in the place of that thought: nothing of the
    optimistic toggle is left.  The promise resolves to the id, and [error]
    is not written (a message left by an earlier failure stays).  The
    update and replace helpers work by id and the optimistic like keeps the
    id. *)
Theorem handleLike_success_takes_server_record {I : Imports}
    (thoughtId : string) (st : FeedState) (currentThought : Thought)
    (updatedThought : ApiRecord)
    (Hupdate : updates_by_id I) (Hreplace : replaces_by_id I)
    (Hlike : like_keeps_id I)
    (Hfound : find_thought thoughtId (thoughts st) = Some currentThought)
    (Hsame : rec_id updatedThought = Some thoughtId) :
  let s := settle (handleLike thoughtId st)
             (Responds true (Normal updatedThought)) in
  thoughts (final s)
  = spec_createReplaceUpdater (Some thoughtId) (processThought updatedThought)
      (thoughts st)
  /\ completion s = Returned (Some thoughtId)
  /\ error (final s) = error st.
Proof.
  cbv zeta. destruct (find_thought_present _ _ _ Hfound) as [_ Hid].
  unfold handleLike. rewrite Hfound. cbn. rewrite Hsame.
  split; [|split; reflexivity].
  rewrite Hreplace, Hupdate. apply replace_after_update.
  rewrite Hlike. exact Hid.
Qed.

Lemma handleLike_success_takes_server_record_witness :
  let a := mkThought "a" "first" "" 0 3 None false false in
  let st := set_error "Could not like the thought. Please try again."
              (set_thoughts [a] initialState) in
  let confirmed :=
    mkApiRecord (Some "a") (Some "first") None None (Some 4) None (Some true) in
  let s := settle (handleLike (I := specImports) "a" st)
             (Responds true (Normal confirmed)) in
  updates_by_id specImports /\ replaces_by_id specImports
  /\ like_keeps_id specImports
  /\ find_thought "a" (thoughts st) = Some a
  /\ rec_id confirmed = Some "a"
  /\ map likesCount (thoughts (final s)) = [4]
  /\ error (final s) = "Could not like the thought. Please try again.".
Proof.
  cbv zeta.
  assert (H1 : updates_by_id specImports) by (intros id f l; reflexivity).
  assert (H2 : replaces_by_id specImports) by (intros id p l; reflexivity).
  assert (H3 : like_keeps_id specImports) by (intros t; reflexivity).
  split; [exact H1|]. split; [exact H2|]. split; [exact H3|].
  split; [reflexivity|]. split; [reflexivity|].
  destruct (handleLike_success_takes_server_record (I := specImports) "a"
              (set_error "Could not like the thought. Please try again."
                 (set_thoughts [mkThought "a" "first" "" 0 3 None false false]
                    initialState))
              (mkThought "a" "first" "" 0 3 None false false)
              (mkApiRecord (Some "a") (Some "first") None None (Some 4) None
                 (Some true))
              H1 H2 H3 eq_refl eq_refl) as (Hth & _ & Herr).
  split; [rewrite Hth; reflexivity|exact Herr].
Defined.

(** ** updateThought *)

(** X14: while the request of [updateThought] is in flight, the thought
    found under the id carries the new message and [isOptimistic = true];
    when the request fails in any way, the thought found under the id is
    again the one from before the edit (and the whole list is as before if
    its ids are unique), and the promise resolves to [{success: false,
    error}].  The update helper updates by id. *)
Theorem updateThought_failure_reverts {I : Imports} (thoughtId message : string)
    (st : FeedState) (currentThought : Thought) (reply : Reply ApiRecord)
    (Hupdate : updates_by_id I)
    (Hfound : find_thought thoughtId (thoughts st) = Some currentThought)
    (Hfails : updateThought_fails reply = true) :
  let t := updateThought thoughtId message st in
  let s := settle t reply in
  find_thought thoughtId (thoughts (store_of t))
  = Some (edited currentThought message)
  /\ find_thought thoughtId (thoughts (final s)) = Some currentThought
  /\ (NoDup (ids (thoughts st)) -> thoughts (final s) = thoughts st)
  /\ exists errorMessage,
       completion s = Returned (mkResult false (Some errorMessage) None).
Proof.
  cbv zeta. destruct (find_thought_present _ _ _ Hfound) as [Hin Hid].
  assert (Hth : thoughts (final (settle (updateThought thoughtId message st)
                                   reply))
                = spec_createOptimisticUpdater thoughtId
                    (fun _ => currentThought) (thoughts st)).
  { unfold updateThought. rewrite Hfound. cbn. unfold updateThought_resume.
    destruct reply as [e|[|] [d|e]]; cbn in Hfails; try discriminate;
      cbn; rewrite !Hupdate;
      rewrite ?(put_back_after_update thoughtId currentThought currentThought)
        by exact Hid;
      apply put_back_after_update; exact Hid. }
  split; [|split; [|split]].
  - unfold updateThought. rewrite Hfound. cbn. rewrite Hupdate.
    eapply find_after_put_back; [exact Hid|exact Hfound].
  - rewrite Hth. eapply find_after_put_back; eassumption.
  - intros Hnd. rewrite Hth, <- Hid. now apply put_back_same.
  - unfold updateThought. rewrite Hfound. cbn. unfold updateThought_resume.
    destruct reply as [e|[|] [d|e]]; cbn in Hfails; try discriminate;
      cbn; eauto.
Qed.

Lemma updateThought_failure_reverts_witness :
  let a := mkThought "a" "first" "" 0 3 None false false in
  let st := set_thoughts [a] initialState in
  let reply : Reply ApiRecord := Responds false (Thrown (mkError "no body")) in
  let t := updateThought (I := specImports) "a" "edited" st in
  updates_by_id specImports
  /\ find_thought "a" (thoughts st) = Some a
  /\ updateThought_fails reply = true
  /\ map message (thoughts (store_of t)) = ["edited"]
  /\ thoughts (final (settle t reply)) = [a].
Proof.
  cbv zeta.
  assert (H1 : updates_by_id specImports) by (intros id f l; reflexivity).
  split; [exact H1|]. split; [reflexivity|]. split; [reflexivity|].
  split; [reflexivity|].
  destruct (updateThought_failure_reverts (I := specImports) "a" "edited"
              (set_thoughts [mkThought "a" "first" "" 0 3 None false false]
                 initialState)
              (mkThought "a" "first" "" 0 3 None false false)
              (Responds false (Thrown (mkError "no body")))
              H1 eq_refl eq_refl) as (_ & _ & Hall & _).
  apply Hall. repeat constructor. intros [].
Defined.

(** X15: when the edit is confirmed with a record that carries the id of
    the thought, the list after the call is the list before the call with
    the processed record in the place of that thought, and the promise
    resolves to [{success: true, thought}] with that processed record.  The
    update and replace helpers work by id. *)
Theorem updateThought_success_takes_server_record {I : Imports}
    (thoughtId message : string) (st : FeedState) (currentThought : Thought)
    (updatedThought : ApiRecord)
    (Hupdate : updates_by_id I) (Hreplace : replaces_by_id I)
    (Hfound : find_thought thoughtId (thoughts st) = Some currentThought)
    (Hsame : rec_id updatedThought = Some thoughtId) :
  let s := settle (updateThought thoughtId message st)
             (Responds true (Normal updatedThought)) in
  thoughts (final s)
  = spec_createReplaceUpdater (Some thoughtId) (processThought updatedThought)
      (thoughts st)
  /\ completion s
     = Returned (mkResult true None (Some (processThought updatedThought))).
Proof.
  cbv zeta. destruct (find_thought_present _ _ _ Hfound) as [_ Hid].
  unfold updateThought. rewrite Hfound. cbn. rewrite Hsame.
  split; [|reflexivity].
  rewrite Hreplace, Hupdate. apply replace_after_update. exact Hid.
Qed.

Lemma updateThought_success_takes_server_record_witness :
  let a := mkThought "a" "first" "" 0 3 None false false in
  let st := set_thoughts [a] initialState in
  let s := settle (updateThought (I := specImports) "a" "edited" st)
             (Responds true (Normal (record "a" "edited"))) in
  updates_by_id specImports /\ replaces_by_id specImports
  /\ find_thought "a" (thoughts st) = Some a
  /\ rec_id (record "a" "edited") = Some "a"
  /\ thoughts (final s) = [spec_processThought (record "a" "edited")].
Proof.
  cbv zeta.
  assert (H1 : updates_by_id specImports) by (intros id f l; reflexivity).
  assert (H2 : replaces_by_id specImports) by (intros id p l; reflexivity).
  split; [exact H1|]. split; [exact H2|].
  split; [reflexivity|]. split; [reflexivity|].
  destruct (updateThought_success_takes_server_record (I := specImports) "a"
              "edited"
              (set_thoughts [mkThought "a" "first" "" 0 3 None false false]
                 initialState)
              (mkThought "a" "first" "" 0 3 None false false)
              (record "a" "edited") H1 H2 eq_refl eq_refl) as [Hth _].
  rewrite Hth. reflexivity.
Defined.

(** ** deleteThought *)

Lemma removed_iff (id : string) (l : list Thought) (x : Thought) :
  In x (spec_createRemoveUpdater id l) <-> In x l /\ _id x <> id.
Proof.
  unfold spec_createRemoveUpdater. rewrite filter_In, negb_true_iff.
  now rewrite String.eqb_neq.
Qed.

Lemma removed_id_absent (id : string) (l : list Thought) :
  ~ In id (ids (spec_createRemoveUpdater id l)).
Proof.
  unfold ids. intros Hin. apply in_map_iff in Hin as (x & Hx & Hin).
  apply removed_iff in Hin as [_ Hne]. exact (Hne Hx).
Qed.

(** X16: [deleteThought] of a thought that is in the list takes every
    thought with that id out of the list before the request goes out, and
    keeps every other thought; when the response is OK the list stays so
    and the promise resolves to [{success: true}].  The remove helper
    removes by id. *)
Theorem deleteThought_success_removes {I : Imports} (thoughtId : string)
    (st : FeedState) (thoughtToDelete : Thought) (json : Try ApiRecord)
    (Hremove : removes_by_id I)
    (Hfound : find_thought thoughtId (thoughts st) = Some thoughtToDelete) :
  let t := deleteThought thoughtId st in
  let s := settle t (Responds true json) in
  ~ In thoughtId (ids (thoughts (store_of t)))
  /\ thoughts (final s) = thoughts (store_of t)
  /\ (forall x, In x (thoughts (final s))
                <-> In x (thoughts st) /\ _id x <> thoughtId)
  /\ completion s = Returned (mkResult true None None).
Proof.
  cbv zeta. unfold deleteThought. rewrite Hfound. cbn. rewrite Hremove.
  split; [apply removed_id_absent|]. split; [reflexivity|].
  split; [apply removed_iff|reflexivity].
Qed.

Lemma deleteThought_success_removes_witness :
  let a := spec_processThought (record "a" "first") in
  let b := spec_processThought (record "b" "second") in
  let st := set_thoughts [a; b] initialState in
  let s := settle (deleteThought (I := specImports) "a" st)
             (Responds true (Thrown (mkError "no body"))) in
  removes_by_id specImports
  /\ find_thought "a" (thoughts st) = Some a
  /\ thoughts (final s) = [b]
  /\ completion s = Returned (mkResult true None None).
Proof.
  cbv zeta.
  assert (H1 : removes_by_id specImports) by (intros id l; reflexivity).
  split; [exact H1|]. split; [reflexivity|].
  destruct (deleteThought_success_removes (I := specImports) "a"
              (set_thoughts [spec_processThought (record "a" "first");
                             spec_processThought (record "b" "second")]
                 initialState)
              (spec_processThought (record "a" "first"))
              (Thrown (mkError "no body")) H1 eq_refl) as (_ & Hth & _ & Hres).
  split; [rewrite Hth; reflexivity|exact Hres].
Defined.

Lemma replace_unmatched (id : option string) (newThought : Thought)
    (l : list Thought) :
  (forall x, id = Some x -> ~ In x (ids l)) ->
  spec_createReplaceUpdater id newThought l = l.
Proof.
  intros Hnone. unfold spec_createReplaceUpdater.
  transitivity (map (fun x : Thought => x) l); [|apply map_id].
  apply map_ext_in. intros t Ht. destruct id as [x|]; cbn [has_id]; [|reflexivity].
  destruct (String.eqb_spec (_id t) x) as [Heq|]; [|reflexivity].
  exfalso. apply (Hnone x eq_refl). rewrite <- Heq. now apply in_map.
Qed.




(** ** Across the actions *)

(** X18: every request the store issues goes through [authenticatedFetch],
    except the fetch of a feed page under a filter other than ['my'], which
    is a plain GET without a body of [/thoughts?page=..&limit=10]. *)
Theorem plain_fetch_only_for_public_feed {I : Imports} {P A} (c : Call P A)
    (st : FeedState) (r : Request)
    (Hissued : request_of (perform c st) = Some r)
    (Hplain : req_via r = PlainFetch) :
  req_method r = GET
  /\ req_body r = None
  /\ (thoughtFilter (store_of (perform c st)) =? "my")%string = false
  /\ exists page,
       req_url r
       = (API_URL ++ "/thoughts?page=" ++ show page ++ "&limit=10")%string.
Proof.
  assert (Hfeed : forall page append st0,
             request_of (fetchThoughts page append st0) = Some r ->
             req_method r = GET /\ req_body r = None
             /\ (thoughtFilter (store_of (fetchThoughts page append st0))
                 =? "my")%string = false
             /\ exists page0,
                  req_url r
                  = (API_URL ++ "/thoughts?page=" ++ show page0
                       ++ "&limit=10")%string).
  { intros page append st0 H. cbn in H. injection H as <-.
    cbn in Hplain |- *. unfold feed_fetcher, feed_endpoint in *.
    destruct (thoughtFilter st0 =? "my")%string; [discriminate|].
    repeat split. now exists page. }
  destruct c as [page append|message onError|tid|tid message|tid|page
                | |mode|filter]; cbn [perform] in *.
  - eapply Hfeed; eassumption.
  - cbn in Hissued. injection Hissued as <-. discriminate Hplain.
  - unfold handleLike in Hissued.
    destruct (find_thought tid (thoughts st)); cbn in Hissued;
      [injection Hissued as <-|]; discriminate.
  - unfold updateThought in Hissued.
    destruct (find_thought tid (thoughts st)); cbn in Hissued;
      [injection Hissued as <-|]; discriminate.
  - unfold deleteThought in Hissued.
    destruct (find_thought tid (thoughts st)); cbn in Hissued;
      [injection Hissued as <-|]; discriminate.
  - unfold changePage in *. destruct (negb (page =? currentPage st)).
    + eapply Hfeed; eassumption.
    + discriminate Hissued.
  - unfold loadMore in *. destruct (negb (loading st) && hasMore st).
    + eapply Hfeed; eassumption.
    + discriminate Hissued.
  - unfold setViewMode in *. destruct (mode =? "infinite")%string.
    + cbn in Hissued. injection Hissued as <-.
      cbn in Hplain |- *. unfold feed_fetcher, feed_endpoint in *.
      destruct (thoughtFilter st =? "my")%string; [discriminate|].
      repeat split. now exists 1.
    + discriminate Hissued.
  - eapply Hfeed; eassumption.
Qed.

Lemma plain_fetch_only_for_public_feed_witness :
  let r := mkRequest PlainFetch "/thoughts?page=2&limit=10" GET None in
  request_of (perform (I := specImports) CallLoadMore initialState) = Some r
  /\ req_via r = PlainFetch
  /\ exists page,
       req_url r = ("" ++ "/thoughts?page=" ++ show page ++ "&limit=10")%string.
Proof.
  cbv zeta. split; [reflexivity|]. split; [reflexivity|].
  exact (proj2 (proj2 (proj2
    (plain_fetch_only_for_public_feed (I := specImports) CallLoadMore
       initialState
       (mkRequest PlainFetch "/thoughts?page=2&limit=10" GET None)
       eq_refl eq_refl)))).
Defined.

(** What a task leaves alone: the filter and the view mode, at its request
    and when it has settled. *)
Lemma task_keeps_filter_and_mode {P A} (st : FeedState) (t : Task P A)
    (reply : Reply P) :
  match t with
  | Finished s =>
      thoughtFilter (final s) = thoughtFilter st
      /\ viewMode (final s) = viewMode st
  | Suspended st1 _ resume =>
      (thoughtFilter st1 = thoughtFilter st /\ viewMode st1 = viewMode st)
      /\ forall st2, thoughtFilter (final (resume reply st2)) = thoughtFilter st2
                     /\ viewMode (final (resume reply st2)) = viewMode st2
  end ->
  (thoughtFilter (store_of t) = thoughtFilter st
   /\ thoughtFilter (final (settle t reply)) = thoughtFilter st)
  /\ (viewMode (store_of t) = viewMode st
      /\ viewMode (final (settle t reply)) = viewMode st).
Proof.
  destruct t as [s|st1 req resume]; cbn.
  - intros [Hf Hm]. repeat split; assumption.
  - intros [[Hf Hm] Hres]. destruct (Hres st1) as [Hf' Hm'].
    repeat split; congruence.
Qed.

Lemma fetchThoughts_keeps_filter_and_mode {I : Imports} (page : Z)
    (append : bool) (st : FeedState) (reply : Reply FeedPayload) :
  let t := fetchThoughts page append st in
  (thoughtFilter (store_of t) = thoughtFilter st
   /\ thoughtFilter (final (settle t reply)) = thoughtFilter st)
  /\ (viewMode (store_of t) = viewMode st
      /\ viewMode (final (settle t reply)) = viewMode st).
Proof.
  apply task_keeps_filter_and_mode. cbn. split; [split; reflexivity|].
  intros st2.
  destruct (fetchThoughts_resume_frame page append reply st2) as (_ & Hm & Hf).
  split; assumption.
Qed.

(** X19: [thoughtFilter] is written by [setThoughtFilter] only and
    [viewMode] by [setViewMode] only: every other action leaves the field
    as it is, at its request and when it has settled, whatever the reply. *)
Theorem filter_and_mode_have_one_writer {I : Imports} {P A} (c : Call P A)
    (st : FeedState) (reply : Reply P) :
  let t := perform c st in
  (is_setThoughtFilter c = false ->
   thoughtFilter (store_of t) = thoughtFilter st
   /\ thoughtFilter (final (settle t reply)) = thoughtFilter st)
  /\ (is_setViewMode c = false ->
      viewMode (store_of t) = viewMode st
      /\ viewMode (final (settle t reply)) = viewMode st).
Proof.
  cbv zeta.
  destruct c as [page append|message onError|tid|tid message|tid|page
                | |mode|filter]; cbn [perform is_setThoughtFilter is_setViewMode].
  - destruct (fetchThoughts_keeps_filter_and_mode page append st reply).
    split; intros _; assumption.
  - destruct (task_keeps_filter_and_mode st (addThought message onError st)
                reply) as [Hf Hm]; [|split; intros _; assumption].
    cbn. split; [split; reflexivity|]. intros st2. unfold addThought_resume.
    destruct reply as [e|ok [data|e]];
      [destruct (_ && onError)
      |destruct (ok && truthy (rec_message data) && truthy (rec_id data))
      |destruct (_ && onError)];
      split; reflexivity.
  - destruct (task_keeps_filter_and_mode st (handleLike tid st) reply)
      as [Hf Hm]; [|split; intros _; assumption].
    unfold handleLike. destruct (find_thought tid (thoughts st)).
    + split; [split; reflexivity|]. intros st2. unfold handleLike_resume.
      destruct reply as [e|[|] [d|e]]; split; reflexivity.
    + split; reflexivity.
  - destruct (task_keeps_filter_and_mode st (updateThought tid message st) reply)
      as [Hf Hm]; [|split; intros _; assumption].
    unfold updateThought. destruct (find_thought tid (thoughts st)).
    + split; [split; reflexivity|]. intros st2. unfold updateThought_resume.
      destruct reply as [e|[|] [d|e]]; split; reflexivity.
    + split; reflexivity.
  - destruct (task_keeps_filter_and_mode st (deleteThought tid st) reply)
      as [Hf Hm]; [|split; intros _; assumption].
    unfold deleteThought. destruct (find_thought tid (thoughts st)).
    + split; [split; reflexivity|]. intros st2. unfold deleteThought_resume.
      destruct reply as [e|[|] [d|e]]; split; reflexivity.
    + split; reflexivity.
  - unfold changePage. destruct (negb (page =? currentPage st)).
    + destruct (fetchThoughts_keeps_filter_and_mode page false st reply).
      split; intros _; assumption.
    + split; intros _; split; reflexivity.
  - unfold loadMore. destruct (negb (loading st) && hasMore st).
    + destruct (fetchThoughts_keeps_filter_and_mode (currentPage st + 1) true
                  st reply).
      split; intros _; assumption.
    + split; intros _; split; reflexivity.
  - split; [intros _|discriminate].
    unfold setViewMode. destruct (mode =? "infinite")%string.
    + cbn [fetchThoughts then_set store_of settle]. split; [reflexivity|].
      destruct (fetchThoughts_resume_frame 1 false reply
                  (set_viewMode mode
                     (set_error ""
                        (set_loading true
                           (set_thoughts [] (set_currentPage 1 st))))))
        as (_ & _ & Hf).
      rewrite Hf. reflexivity.
    + split; reflexivity.
  - split; [discriminate|intros _].
    unfold setThoughtFilter.
    destruct (fetchThoughts_keeps_filter_and_mode 1 false
                (set_thoughts [] (set_currentPage 1
                   (set_thoughtFilter filter st))) reply) as [_ Hm].
    exact Hm.
Qed.

Lemma filter_and_mode_have_one_writer_witness :
  let st := set_thoughtFilter "my" (set_viewMode "infinite" initialState) in
  let reply : Reply FeedPayload := Rejects (mkError "Failed to fetch") in
  is_setThoughtFilter CallLoadMore = false
  /\ is_setViewMode CallLoadMore = false
  /\ thoughtFilter (final (settle (perform (I := specImports) CallLoadMore st)
                             reply)) = "my"
  /\ viewMode (final (settle (perform (I := specImports) CallLoadMore st)
                        reply)) = "infinite".
Proof.
  cbv zeta. split; [reflexivity|]. split; [reflexivity|].
  destruct (filter_and_mode_have_one_writer (I := specImports) CallLoadMore
              (set_thoughtFilter "my" (set_viewMode "infinite" initialState))
              (Rejects (mkError "Failed to fetch"))) as [Hf Hm].
  split.
  - exact (proj2 (Hf eq_refl)).
  - exact (proj2 (Hm eq_refl)).
Defined.

(** X20: in a session where each action runs to its end before the next
    one starts, the store is not loading once an action has settled:
    [loading] is false in every such store. *)
Theorem reachable_not_loading {I : Imports} (st : FeedState)
    (Hreach : reachable st) :
  loading st = false.
Proof.
  induction Hreach as [|P A c reply st Hreach IH]; [reflexivity|].
  destruct c as [page append|message onError|tid|tid message|tid|page
                | |mode|filter]; cbn [perform].
  - reflexivity.
  - reflexivity.
  - unfold handleLike. destruct (find_thought tid (thoughts st)); cbn.
    + unfold handleLike_resume.
      destruct reply as [e|[|] [d|e]]; cbn; exact IH.
    + exact IH.
  - unfold updateThought. destruct (find_thought tid (thoughts st)); cbn.
    + unfold updateThought_resume.
      destruct reply as [e|[|] [d|e]]; cbn; exact IH.
    + exact IH.
  - unfold deleteThought. destruct (find_thought tid (thoughts st)); cbn.
    + unfold deleteThought_resume.
      destruct reply as [e|[|] [d|e]]; cbn; exact IH.
    + exact IH.
  - unfold changePage. destruct (negb (page =? currentPage st)).
    + reflexivity.
    + exact IH.
  - unfold loadMore. destruct (negb (loading st) && hasMore st).
    + reflexivity.
    + exact IH.
  - unfold setViewMode. destruct (mode =? "infinite")%string.
    + reflexivity.
    + exact IH.
  - reflexivity.
Qed.

Lemma reachable_not_loading_witness :
  let s := final (settle (perform (I := specImports) (CallHandleLike "a")
                            (final (settle
                               (perform (I := specImports)
                                  (CallFetchThoughts 1 false) initialState)
                               (Responds true
                                  (Normal (BareArray [record "a" "first"]))))))
                    (Rejects (mkError "Failed to fetch"))) in
  reachable (I := specImports) s /\ loading s = false.
Proof.
  cbv zeta.
  assert (H : reachable (I := specImports)
                (final (settle (perform (I := specImports) (CallHandleLike "a")
                   (final (settle
                      (perform (I := specImports)
                         (CallFetchThoughts 1 false) initialState)
                      (Responds true
                         (Normal (BareArray [record "a" "first"]))))))
                   (Rejects (mkError "Failed to fetch"))))).
  { apply reach_settle. apply reach_settle. apply reach_initial. }
  split; [exact H|].
  exact (reachable_not_loading (I := specImports) _ H).
Defined.

(** ** Overlapping actions *)

(** X21: a successful [fetchThoughts(page)] in replace mode leaves exactly
    the processed page in [thoughts], one thought per record, whatever the
    list held, and [error] is empty, whatever message it held. *)
Theorem fetchThoughts_replace_discards_list {I : Imports} (page : Z)
    (st : FeedState) (data : FeedPayload) (records : list ApiRecord)
    (Harray : thoughtsArray_of data = Normal records) :
  let s := final (settle (fetchThoughts page false st)
                    (Responds true (Normal data))) in
  thoughts s = map processThought records
  /\ List.length (thoughts s) = List.length records
  /\ error s = "".
Proof.
  cbv zeta. rewrite (fetchThoughts_settle_ok _ _ _ _ _ Harray).
  cbn. rewrite length_map. repeat split.
Qed.

Lemma fetchThoughts_replace_discards_list_witness :
  let st := set_error "Could not load happy thoughts. Please try again later."
              (set_thoughts [spec_processThought (record "a" "first")]
                 initialState) in
  let data := BareArray [record "b" "second"] in
  let s := final (settle (fetchThoughts (I := specImports) 2 false st)
                    (Responds true (Normal data))) in
  thoughtsArray_of data = Normal [record "b" "second"]
  /\ ids (thoughts s) = ["b"]
  /\ error s = "".
Proof.
  cbv zeta. split; [reflexivity|].
  destruct (fetchThoughts_replace_discards_list (I := specImports) 2
              (set_error "Could not load happy thoughts. Please try again later."
                 (set_thoughts [spec_processThought (record "a" "first")]
                    initialState))
              (BareArray [record "b" "second"]) [record "b" "second"] eq_refl)
    as (Hth & _ & Herr).
  split; [rewrite Hth; reflexivity|exact Herr].
Defined.

(** X22: a thought added while a replace-mode fetch is in flight is lost
    from the list.  [addThought] puts its placeholder at the head; when the
    fetch then settles, it sets [thoughts] to its page, without the
    placeholder, and [loading] to false though the POST is still in flight;
    when the server then accepts the new thought, nothing is left to
    replace, and [thoughts] is the fetched page without the new thought.
    The replace helper replaces by id, and the temporary id is the id of no
    thought of the page. *)
Theorem addThought_during_fetch_is_lost {I : Imports} (page : Z)
    (message : string) (onError : bool) (st : FeedState)
    (data : FeedPayload) (records : list ApiRecord) (ok : bool)
    (created : ApiRecord)
    (Hreplace : replaces_by_id I)
    (Harray : thoughtsArray_of data = Normal records)
    (Haccepted : accepted_by_server ok created = true)
    (Hfresh : ~ In (_id (createOptimisticThought message))
                (ids (map processThought records))) :
  let fetching := fetchThoughts page false st in
  let adding := addThought message onError (store_of fetching) in
  let fetched :=
    final (settle_in fetching (Responds true (Normal data)) (store_of adding)) in
  let added :=
    final (settle_in adding (Responds ok (Normal created)) fetched) in
  thoughts (store_of adding) = createOptimisticThought message :: thoughts st
  /\ thoughts fetched = map processThought records
  /\ loading fetched = false
  /\ thoughts added = map processThought records.
Proof.
  cbv zeta. unfold accepted_by_server in Haccepted.
  cbn. unfold fetchThoughts_resume, fetchThoughts_try. rewrite Harray. cbn.
  unfold addThought_resume. rewrite Haccepted. cbn.
  split; [reflexivity|]. split; [reflexivity|]. split; [reflexivity|].
  rewrite Hreplace. apply replace_unmatched.
  intros x Hx. injection Hx as <-. exact Hfresh.
Qed.

Lemma addThought_during_fetch_is_lost_witness :
  let data := BareArray [record "a" "first"] in
  let fetching := fetchThoughts (I := specImports) 1 false initialState in
  let adding := addThought (I := specImports) "hi" false (store_of fetching) in
  let fetched :=
    final (settle_in fetching (Responds true (Normal data)) (store_of adding)) in
  let added :=
    final (settle_in adding (Responds true (Normal (record "x1" "hi"))) fetched) in
  replaces_by_id specImports
  /\ thoughtsArray_of data = Normal [record "a" "first"]
  /\ accepted_by_server true (record "x1" "hi") = true
  /\ ~ In (_id (spec_createOptimisticThought "hi"))
         (ids (map spec_processThought [record "a" "first"]))
  /\ ids (thoughts (store_of adding)) = ["temp-id"]
  /\ ids (thoughts added) = ["a"].
Proof.
  cbv zeta.
  assert (H1 : replaces_by_id specImports) by (intros id p l; reflexivity).
  assert (H2 : ~ In (_id (createOptimisticThought (Imports := specImports) "hi"))
                 (ids (map (processThought (Imports := specImports))
                         [record "a" "first"]))).
  { simpl. intros [H|[]]. discriminate H. }
  split; [exact H1|]. split; [reflexivity|]. split; [reflexivity|].
  split; [exact H2|]. split; [reflexivity|].
  destruct (addThought_during_fetch_is_lost (I := specImports) 1 "hi" false
              initialState (BareArray [record "a" "first"])
              [record "a" "first"] true (record "x1" "hi")
              H1 eq_refl eq_refl H2) as (_ & _ & _ & Hth).
  rewrite Hth. reflexivity.
Defined.
